(** * gcpbillingactivate: a verification development for [activate.py]

    The script shells out to [gcloud], parses its CSV listings and links a
    project to a trial billing account.  This file embeds the script in Rocq
    and proves properties of the embedding.

    - Text is modelled as [string], a character being a code point below 256.
    - The interpreter's built-ins used by the script ([str.strip], [in],
      [int], [io.StringIO] iteration) and the [csv.reader] of the default
      "excel" dialect are in the modules [Py] and [Csv], following CPython
      3.11 ([Objects/unicodeobject.c], [Objects/longobject.c],
      [Modules/_csv.c]).
    - The outside world (the [gcloud] tool, standard input, the two output
      streams) is explicit state: a run is a function from a state to an
      outcome and a state, and every print, prompt and subprocess call is
      appended to a log. *)

From Stdlib Require Import List String Ascii ZArith NArith Bool Lia.
From Stdlib Require Import DecimalString DecimalNat.
Import ListNotations.
Open Scope string_scope.

(** ** Built-ins of the interpreter *)

Module Py.

(** [str.isspace] on one character (code points 9-13, 28-32, 0x85, 0xA0). *)
Definition isspace (c : ascii) : bool :=
  let n := N_of_ascii c in
  ((9 <=? n) && (n <=? 13) || (28 <=? n) && (n <=? 32)
   || (n =? 133) || (n =? 160))%N.

Fixpoint lstrip (s : string) : string :=
  match s with
  | EmptyString => EmptyString
  | String c t => if isspace c then lstrip t else s
  end.

Fixpoint rstrip (s : string) : string :=
  match s with
  | EmptyString => EmptyString
  | String c t =>
      match rstrip t with
      | EmptyString => if isspace c then EmptyString else String c EmptyString
      | t' => String c t'
      end
  end.

(** [s.strip()] *)
Definition strip (s : string) : string := rstrip (lstrip s).

(** [not s] for a [str] *)
Definition not_str (s : string) : bool :=
  match s with
  | EmptyString => true
  | String _ _ => false
  end.

(** [not x] for a value that is a [str] or [None] *)
Definition not_opt (x : option string) : bool :=
  match x with
  | None => true
  | Some s => not_str s
  end.

(** [f"{x}"] for a value that is a [str] or [None] *)
Definition format_opt (x : option string) : string :=
  match x with
  | None => "None"
  | Some s => s
  end.

(** [sub in s] *)
Fixpoint contains (sub s : string) : bool :=
  prefix sub s ||
  match s with
  | EmptyString => false
  | String _ t => contains sub t
  end.

(** [f"{n}"] for a non-negative [int] *)
Definition str_of_nat (n : nat) : string :=
  NilZero.string_of_uint (Nat.to_uint n).

(** Iterating an [io.StringIO]: lines end at a line feed, which is kept;
    carriage returns are ordinary characters (the default [newline]). *)
Fixpoint readlines (s : string) : list string :=
  match s with
  | EmptyString => []
  | String c t =>
      if Ascii.eqb c "010" then String c EmptyString :: readlines t
      else match readlines t with
           | [] => [String c EmptyString]
           | l :: ls => String c l :: ls
           end
  end.

(** *** [int(s)]

    [PyLong_FromUnicodeObject] turns the non-ASCII spaces into blanks, then
    [PyLong_FromString] (base 10) skips blanks, takes a sign, scans digits
    that single underscores may separate, refuses more than
    [max_str_digits] digits, and skips blanks up to the end. *)

Definition int_isspace (c : ascii) : bool :=
  let n := N_of_ascii c in
  ((9 <=? n) && (n <=? 13) || (n =? 32) || (n =? 133) || (n =? 160))%N.

Definition digit_value (c : ascii) : option N :=
  let n := N_of_ascii c in
  if ((48 <=? n) && (n <=? 57))%N then Some (n - 48)%N else None.

Definition max_str_digits : N := 4300.

Fixpoint skip_spaces (s : string) : string :=
  match s with
  | EmptyString => EmptyString
  | String c t => if int_isspace c then skip_spaces t else s
  end.

(** The scan of [long_from_string_base]: [prev] tells whether the previous
    character was an underscore; the result is the number of digits, their
    value and the text left. *)
Fixpoint scan_digits (prev : bool) (digits value : N) (s : string)
  : option (N * N * string) :=
  match s with
  | EmptyString => if prev then None else Some (digits, value, s)
  | String c t =>
      if Ascii.eqb c "_" then
        if prev then None else scan_digits true digits value t
      else
        match digit_value c with
        | Some d => scan_digits false (N.succ digits) (10 * value + d)%N t
        | None => if prev then None else Some (digits, value, s)
        end
  end.

(** [None] stands for [ValueError]. *)
Definition int (s : string) : option Z :=
  let s := skip_spaces s in
  let '(negative, s) :=
    match s with
    | String "+" t => (false, t)
    | String "-" t => (true, t)
    | _ => (false, s)
    end in
  match s with
  | String "_" _ => None
  | _ =>
      match scan_digits false 0%N 0%N s with
      | None => None
      | Some (digits, value, rest) =>
          if (max_str_digits <? digits)%N then None
          else if (digits =? 0)%N then None
          else
            match skip_spaces rest with
            | EmptyString =>
                Some (if negative then (- Z.of_N value)%Z else Z.of_N value)
            | String _ _ => None
            end
      end
  end.

End Py.

(** ** The CSV reader *)

Module Csv.

(** The parser states that the default dialect can reach (it has no escape
    character). *)
Inductive ParserState :=
| START_RECORD
| START_FIELD
| IN_FIELD
| IN_QUOTED_FIELD
| QUOTE_IN_QUOTED_FIELD
| EAT_CRNL.

Definition ParserState_eqb (a b : ParserState) : bool :=
  match a, b with
  | START_RECORD, START_RECORD
  | START_FIELD, START_FIELD
  | IN_FIELD, IN_FIELD
  | IN_QUOTED_FIELD, IN_QUOTED_FIELD
  | QUOTE_IN_QUOTED_FIELD, QUOTE_IN_QUOTED_FIELD
  | EAT_CRNL, EAT_CRNL => true
  | _, _ => false
  end.

Record ReaderObj := mkReader {
  state : ParserState;
  fields : list string;   (* the fields saved for the current record *)
  field : string;         (* the field under construction *)
  field_len : N
}.

Definition field_limit : N := 131072.

(** The dialect: comma as delimiter, the double quote as quote character
    (code point 34), doubled quotes inside quoted fields, not strict, no
    initial-space skipping. *)
Definition delimiter : ascii := ",".
Definition quotechar : ascii := "034".

Definition parse_reset : ReaderObj :=
  mkReader START_RECORD [] EmptyString 0.

Definition set_state (self : ReaderObj) (s : ParserState) : ReaderObj :=
  mkReader s (fields self) (field self) (field_len self).

Definition parse_save_field (self : ReaderObj) : ReaderObj :=
  mkReader (state self) (fields self ++ [field self]) EmptyString 0.

(** [None] stands for [_csv.Error] ("field larger than field limit"). *)
Definition parse_add_char (self : ReaderObj) (c : ascii) : option ReaderObj :=
  if (field_limit <=? field_len self)%N then None
  else Some (mkReader (state self) (fields self)
                      (field self ++ String c EmptyString)
                      (N.succ (field_len self))).

Definition is_newline (c : ascii) : bool :=
  Ascii.eqb c "010" || Ascii.eqb c "013".

(** One step of the automaton; the character [None] is the end of a line.
    The result [None] stands for [_csv.Error]. *)
Definition parse_process_char (self : ReaderObj) (c : option ascii)
  : option ReaderObj :=
  let start_field (self : ReaderObj) :=
    match c with
    | None => Some (set_state (parse_save_field self) START_RECORD)
    | Some ch =>
        if is_newline ch then Some (set_state (parse_save_field self) EAT_CRNL)
        else if Ascii.eqb ch quotechar then Some (set_state self IN_QUOTED_FIELD)
        else if Ascii.eqb ch delimiter then Some (parse_save_field self)
        else option_map (fun s => set_state s IN_FIELD) (parse_add_char self ch)
    end in
  match state self with
  | START_RECORD =>
      match c with
      | None => Some self
      | Some ch =>
          if is_newline ch then Some (set_state self EAT_CRNL)
          else start_field (set_state self START_FIELD)
      end
  | START_FIELD => start_field self
  | IN_FIELD =>
      match c with
      | None => Some (set_state (parse_save_field self) START_RECORD)
      | Some ch =>
          if is_newline ch then Some (set_state (parse_save_field self) EAT_CRNL)
          else if Ascii.eqb ch delimiter
          then Some (set_state (parse_save_field self) START_FIELD)
          else parse_add_char self ch
      end
  | IN_QUOTED_FIELD =>
      match c with
      | None => Some self
      | Some ch =>
          if Ascii.eqb ch quotechar
          then Some (set_state self QUOTE_IN_QUOTED_FIELD)
          else parse_add_char self ch
      end
  | QUOTE_IN_QUOTED_FIELD =>
      match c with
      | None => Some (set_state (parse_save_field self) START_RECORD)
      | Some ch =>
          if Ascii.eqb ch quotechar
          then option_map (fun s => set_state s IN_QUOTED_FIELD)
                          (parse_add_char self ch)
          else if Ascii.eqb ch delimiter
          then Some (set_state (parse_save_field self) START_FIELD)
          else if is_newline ch
          then Some (set_state (parse_save_field self) EAT_CRNL)
          else option_map (fun s => set_state s IN_FIELD)
                          (parse_add_char self ch)
      end
  | EAT_CRNL =>
      match c with
      | None => Some (set_state self START_RECORD)
      | Some ch => if is_newline ch then Some self else None
      end
  end.

(** The characters of one line, then the end of the line. *)
Fixpoint parse_line (self : ReaderObj) (line : string) : option ReaderObj :=
  match line with
  | EmptyString => parse_process_char self None
  | String c t =>
      match parse_process_char self (Some c) with
      | None => None
      | Some self' => parse_line self' t
      end
  end.

(** What an iterator does when [next] is called on it again and again: it
    yields items, then is exhausted ([StopIteration]) or raises. *)
Inductive iterator (A : Type) :=
| Exhausted
| Raises
| Yields (item : A) (rest : iterator A).
Arguments Exhausted {A}.
Arguments Raises {A}.
Arguments Yields {A} item rest.

(** [Reader_iternext], called repeatedly: lines are read until the
    automaton is back at [START_RECORD]; at the end of the input a pending
    field closes the record. *)
Fixpoint iternext (self : ReaderObj) (lines : list string)
  : iterator (list string) :=
  match lines with
  | [] =>
      if negb (field_len self =? 0)%N
         || ParserState_eqb (state self) IN_QUOTED_FIELD
      then Yields (fields (parse_save_field self)) Exhausted
      else Exhausted
  | lineobj :: rest =>
      match parse_line self lineobj with
      | None => Raises
      | Some self' =>
          if ParserState_eqb (state self') START_RECORD
          then Yields (fields self') (iternext parse_reset rest)
          else iternext self' rest
      end
  end.

(** [csv.reader(io.StringIO(text))] *)
Definition reader (text : string) : iterator (list string) :=
  iternext parse_reset (Py.readlines text).

(** [list(it)]; [None] when the iterator raises. *)
Fixpoint to_list {A} (it : iterator A) : option (list A) :=
  match it with
  | Exhausted => Some []
  | Raises => None
  | Yields a rest => option_map (cons a) (to_list rest)
  end.

End Csv.

(** ** The outside world and the effects of the script *)

(** What [subprocess.run(..., capture_output=True, text=True)] gives back.
    With [text=True] the two outputs are decoded with universal newlines:
    every carriage return, alone or before a line feed, has become a line
    feed, so the texts the script sees hold no carriage return.  The record
    does not enforce this: a statement about every process holds of the
    processes the script can see, and the examples use texts without
    carriage returns only. *)
Record CompletedProcess := mkProcess {
  stdout : string;
  stderr : string;
  returncode : Z
}.

(** The [gcloud] tool and its configuration store: the answer to a command
    may depend on every command run before it. *)
Definition World := list string -> string -> CompletedProcess.

Inductive event :=
| Print (text : string)         (* [print(text)] *)
| PrintErr (text : string)      (* [print(text, file=sys.stderr)] *)
| Prompt (text : string)        (* the prompt written by [input(text)] *)
| Subprocess (command : string) (* [subprocess.run(command, shell=True)] *).

Inductive exn :=
| SystemExit (code : Z)
| ValueError
| IndexError
| EOFError
| CsvError.

Inductive outcome (A : Type) :=
| Return (a : A)
| Raise (e : exn).
Arguments Return {A} a.
Arguments Raise {A} e.

Record State := mkState {
  world : World;
  cmds : list string;    (* the commands run so far, oldest first *)
  stdin : list string;   (* the lines still to be read *)
  log : list event       (* what the run did so far, oldest first *)
}.

Definition M (A : Type) : Type := State -> outcome A * State.

Definition ret {A} (a : A) : M A := fun st => (Return a, st).

Definition raise {A} (e : exn) : M A := fun st => (Raise e, st).

Definition bind {A B} (m : M A) (k : A -> M B) : M B :=
  fun st =>
    match m st with
    | (Return a, st') => k a st'
    | (Raise e, st') => (Raise e, st')
    end.

Notation "x <- m ;; k" := (bind m (fun x => k))
  (at level 100, m at next level, right associativity).
Notation "' pat <- m ;; k" := (bind m (fun x => match x with pat => k end))
  (at level 100, pat pattern, m at next level, right associativity).
Notation "m ;; k" := (bind m (fun _ => k))
  (at level 100, right associativity).

Definition emit (e : event) : M unit :=
  fun st => (Return tt, mkState (world st) (cmds st) (stdin st) (log st ++ [e])).

Definition print (text : string) : M unit := emit (Print text).

Definition print_err (text : string) : M unit := emit (PrintErr text).

Definition sys_exit {A} (code : Z) : M A := raise (SystemExit code).

Definition subprocess_run (command : string) : M CompletedProcess :=
  fun st =>
    (Return (world st (cmds st) command),
     mkState (world st) (cmds st ++ [command]) (stdin st)
             (log st ++ [Subprocess command])).

(** The status the process ends with: 0 when [main] returns, the code of
    [sys.exit], 1 for any other exception that nothing catches. *)
Definition exit_status {A} (o : outcome A) : Z :=
  match o with
  | Return _ => 0
  | Raise (SystemExit code) => code
  | Raise _ => 1
  end.

Definition initial (w : World) (lines : list string) : State :=
  mkState w [] lines [].

(** ** The script *)

Abbreviation row := (list string) (only parsing).

Definition run_gcloud_command (command : string) (check : bool) : M string :=
  process <- subprocess_run command ;;
  if check && negb (returncode process =? 0)%Z then
    (* subprocess.CalledProcessError *)
    print_err ("Error running command: " ++ command) ;;
    print_err ("Stderr: " ++ stderr process) ;;
    sys_exit 1
  else
    ret (Py.strip (stdout process)).

(** The condition of line 40; the length test guards the two indexings. *)
Definition is_trial_account (r : row) : bool :=
  (List.length r =? 3)%nat
  && String.eqb (nth 2 r EmptyString) "True"
  && Py.contains "Trial Billing Account" (nth 0 r EmptyString).

(** The [for row in csv_reader] loop of lines 39-43. *)
Fixpoint first_trial_account (csv_reader : Csv.iterator row)
  : outcome (option string * option string) :=
  match csv_reader with
  | Csv.Exhausted => Return (None, None)
  | Csv.Raises => Raise CsvError
  | Csv.Yields r rest =>
      if is_trial_account r
      then Return (Some (nth 0 r EmptyString), Some (nth 1 r EmptyString))
      else first_trial_account rest
  end.

Definition billing_list_command : string :=
  "gcloud beta billing accounts list --format='csv(displayName,name,open)'".

Definition find_active_billing_account : M (option string * option string) :=
  output <- run_gcloud_command billing_list_command true ;;
  if Py.not_str output then ret (None, None)
  else
    match Csv.reader output with
    | Csv.Exhausted => ret (None, None)     (* StopIteration at the header *)
    | Csv.Raises => raise CsvError
    | Csv.Yields _ csv_reader => fun st => (first_trial_account csv_reader, st)
    end.

Definition get_project_command : string := "gcloud config get-value project".

Definition get_current_project : M string :=
  run_gcloud_command get_project_command false.

(** The menu of lines 76-77: each row is unpacked into exactly two names. *)
Fixpoint print_menu (i : nat) (projects : list row) : M unit :=
  match projects with
  | [] => ret tt
  | [project_id; name] :: rest =>
      print ("  " ++ Py.str_of_nat (i + 1) ++ ": " ++ project_id
             ++ " (" ++ name ++ ")") ;;
      print_menu (S i) rest
  | _ :: _ => raise ValueError
  end.

Definition selection_prompt (projects : list row) : string :=
  "Enter a number (1-" ++ Py.str_of_nat (List.length projects) ++ "): ".

(** The [while True] loop of lines 79-88, by recursion on the lines that
    standard input still holds; [input] raises [EOFError] when none is
    left. *)
Fixpoint selection_loop (projects : list row) (lines : list string)
  (log : list event) : outcome string * (list string * list event) :=
  let log := (log ++ [Prompt (selection_prompt projects)])%list in
  match lines with
  | [] => (Raise EOFError, ([], log))
  | selection :: lines =>
      match Py.int selection with
      | None =>
          selection_loop projects lines
            (log ++ [PrintErr "Invalid input. Please enter a number."])%list
      | Some n =>
          let selection_index := (n - 1)%Z in
          if (0 <=? selection_index)%Z
             && (selection_index <? Z.of_nat (List.length projects))%Z
          then
            match nth_error projects (Z.to_nat selection_index) with
            | Some (project_id :: _) => (Return project_id, (lines, log))
            | _ => (Raise IndexError, (lines, log))
            end
          else
            selection_loop projects lines
              (log ++ [PrintErr "Invalid selection. Please try again."])%list
      end
  end.

Definition while_true (projects : list row) : M string :=
  fun st =>
    let '(o, (lines, log')) := selection_loop projects (stdin st) (log st) in
    (o, mkState (world st) (cmds st) lines log').

Definition project_list_command : string :=
  "gcloud projects list --format='csv(projectId,name)'".

Definition select_project : M (option string) :=
  print "Fetching available projects..." ;;
  output <- run_gcloud_command project_list_command true ;;
  if Py.not_str output then
    print_err "No projects found." ;; ret None
  else
    match Csv.reader output with
    | Csv.Exhausted => print_err "No projects found." ;; ret None
    | Csv.Raises => raise CsvError
    | Csv.Yields header csv_reader =>
        match Csv.to_list csv_reader with
        | None => raise CsvError
        | Some [] => print_err "No projects found." ;; ret None
        | Some projects =>
            print "Please select a project:" ;;
            print_menu 0 projects ;;
            project_id <- while_true projects ;;
            ret (Some project_id)
        end
    end.

Definition link_command (project_id billing_account_id : string) : string :=
  "gcloud beta billing projects link " ++ project_id
  ++ " --billing-account " ++ billing_account_id.

Definition link_billing_account (project_id billing_account_id : string)
  : M unit :=
  run_gcloud_command (link_command project_id billing_account_id) true ;;
  ret tt.

Definition set_project_command (project_id : string) : string :=
  "gcloud config set project " ++ project_id.

Definition main : M unit :=
  print "Finding an active billing account..." ;;
  '(display_name, billing_id) <- find_active_billing_account ;;
  if Py.not_opt billing_id then
    print_err "Error: No active billing account with 'Trial Billing Account' in the name found." ;;
    sys_exit 1
  else
    print ("Found billing account: " ++ Py.format_opt display_name
           ++ " (" ++ Py.format_opt billing_id ++ ")") ;;
    print "Finding current project..." ;;
    project_id <- get_current_project ;;
    project_id <-
      (if Py.not_str project_id then
         print "No active gcloud project found. Let's select one." ;;
         project_id <- select_project ;;
         if Py.not_opt project_id then
           print_err "No project selected. Exiting." ;;
           sys_exit 1
         else
           print ("Setting project '" ++ Py.format_opt project_id
                  ++ "' as current...") ;;
           run_gcloud_command
             (set_project_command (Py.format_opt project_id)) true ;;
           (* Re-fetch to confirm *)
           get_current_project
       else ret project_id) ;;
    if Py.not_str project_id then
      print_err "Failed to set project. Exiting." ;;
      sys_exit 1
    else
      print ("Using project: " ++ project_id) ;;
      print ("Linking project " ++ project_id ++ " to billing account "
             ++ Py.format_opt display_name
             ++ " (" ++ Py.format_opt billing_id ++ ")...") ;;
      link_billing_account project_id (Py.format_opt billing_id) ;;
      print "Successfully linked project.".

(** ** Vocabulary of the statements *)

Open Scope list_scope.

Definition LF : string := String "010" EmptyString.

(** [n] times the character [c]. *)
Fixpoint replicate (n : nat) (c : ascii) : string :=
  match n with
  | O => EmptyString
  | S n => String c (replicate n c)
  end.

(** The character [c] does not occur in [s]. *)
Fixpoint free_of (c : ascii) (s : string) : bool :=
  match s with
  | EmptyString => true
  | String d t => negb (Ascii.eqb c d) && free_of c t
  end.

(** [sub] occurs in [s]. *)
Definition substring_of (sub s : string) : Prop :=
  exists a b, s = (a ++ sub ++ b)%string.

Fixpoint all_space (s : string) : bool :=
  match s with
  | EmptyString => true
  | String c t => Py.isspace c && all_space t
  end.

Definition first_char (s : string) : option ascii :=
  match s with
  | EmptyString => None
  | String c _ => Some c
  end.

Fixpoint last_char (s : string) : option ascii :=
  match s with
  | EmptyString => None
  | String c EmptyString => Some c
  | String _ t => last_char t
  end.

Definition not_space (c : option ascii) : Prop :=
  match c with
  | None => True
  | Some c => Py.isspace c = false
  end.

(** [t] is [s] without the white space at its two ends. *)
Definition trimmed_from (t s : string) : Prop :=
  exists a b,
    s = (a ++ t ++ b)%string /\ all_space a = true /\ all_space b = true
    /\ not_space (first_char t) /\ not_space (last_char t).

(** The value a computation returns or the exception it raises. *)
Definition result {A} (m : M A) (st : State) : outcome A := fst (m st).

(** The state once more events are logged, and once a command has run. *)
Definition logged (st : State) (evs : list event) : State :=
  mkState (world st) (cmds st) (stdin st) (log st ++ evs).

Definition after_command (st : State) (command : string) (evs : list event)
  : State :=
  mkState (world st) (cmds st ++ [command]) (stdin st)
          (log st ++ Subprocess command :: evs).

(** What an observer sees of a run. *)
Definition observe {A} (r : outcome A * State)
  : outcome A * list string * list string * list event :=
  (fst r, cmds (snd r), stdin (snd r), log (snd r)).

(** The items an iterator yields before it stops, and whether it stops by
    raising. *)
Fixpoint yielded {A} (it : Csv.iterator A) : list A :=
  match it with
  | Csv.Yields a rest => a :: yielded rest
  | _ => []
  end.

Fixpoint raises {A} (it : Csv.iterator A) : bool :=
  match it with
  | Csv.Exhausted => false
  | Csv.Raises => true
  | Csv.Yields _ rest => raises rest
  end.

(** The reader once the header row has been taken from it. *)
Definition after_header (output : string) : Csv.iterator row :=
  match Csv.reader output with
  | Csv.Yields _ rest => rest
  | other => other
  end.

(** A row of three fields, open, whose name holds the marker. *)
Definition trial_row (r : row) : Prop :=
  exists name id,
    r = [name; id; "True"] /\ substring_of "Trial Billing Account" name.

(** The text the three queries hand to the script in a given state. *)
Definition listing_output (st : State) : string :=
  Py.strip (stdout (world st (cmds st) billing_list_command)).

Definition projects_output (st : State) : string :=
  Py.strip (stdout (world st (cmds st) project_list_command)).

Definition current_project (st : State) : string :=
  Py.strip (stdout (world st (cmds st) get_project_command)).

(** Lines 75-88 of [select_project]: the menu and the selection. *)
Definition offer (projects : list row) : M (option string) :=
  print "Please select a project:" ;;
  print_menu 0 projects ;;
  project_id <- while_true projects ;;
  ret (Some project_id).

(** Lines 121-130 of [main]: what follows the resolution of the project. *)
Definition finish (display_name billing_id : option string)
  (project_id : string) : M unit :=
  if Py.not_str project_id then
    print_err "Failed to set project. Exiting." ;;
    sys_exit 1
  else
    print ("Using project: " ++ project_id) ;;
    print ("Linking project " ++ project_id ++ " to billing account "
           ++ Py.format_opt display_name
           ++ " (" ++ Py.format_opt billing_id ++ ")...") ;;
    link_billing_account project_id (Py.format_opt billing_id) ;;
    print "Successfully linked project.".

(** The states in which [main] queries the current project and calls
    [select_project], when the finder returned the given pair. *)
Definition before_query (st : State) (display_name billing_id : option string)
  : State :=
  logged
    (after_command
       (logged st [Print "Finding an active billing account..."])
       billing_list_command [])
    [Print ("Found billing account: " ++ Py.format_opt display_name
            ++ " (" ++ Py.format_opt billing_id ++ ")");
     Print "Finding current project..."].

Definition before_selection (st : State)
  (display_name billing_id : option string) : State :=
  logged
    (after_command (before_query st display_name billing_id)
       get_project_command [])
    [Print "No active gcloud project found. Let's select one."].

(** An input line that selects one of [n] projects. *)
Definition valid_choice (n : nat) (line : string) : Prop :=
  exists k, Py.int line = Some k /\ (1 <= k <= Z.of_nat n)%Z.

(** The message that answers a line that selects nothing. *)
Definition diagnostic (line : string) : event :=
  match Py.int line with
  | None => PrintErr "Invalid input. Please enter a number."
  | Some _ => PrintErr "Invalid selection. Please try again."
  end.

Definition reprompts (projects : list row) (bad : list string) : list event :=
  flat_map (fun line => [Prompt (selection_prompt projects); diagnostic line])
           bad.

(** The diagnostics that report a fatal condition: the last line of a
    failed command's report and the three messages of [main]. *)
Definition fatal (e : event) : bool :=
  match e with
  | PrintErr msg =>
      prefix "Stderr: " msg
      || String.eqb msg "Error: No active billing account with 'Trial Billing Account' in the name found."
      || String.eqb msg "No project selected. Exiting."
      || String.eqb msg "Failed to set project. Exiting."
  | _ => false
  end.

Definition clean (l : list event) : Prop := Forall (fun e => fatal e = false) l.

(** A log is well halted for an outcome when a fatal diagnostic, if any, is
    its last event and comes with [sys.exit(1)]. *)
Definition halted {A} (o : outcome A) (l : list event) : Prop :=
  match o with
  | Raise (SystemExit code) =>
      code = 1%Z /\ exists l' e, l = l' ++ [e] /\ clean l' /\ fatal e = true
  | _ => clean l
  end.

Definition fail_fast {A} (m : M A) : Prop :=
  forall st, clean (log st) -> halted (fst (m st)) (log (snd (m st))).

(** A computation that runs no command. *)
Definition silent {A} (m : M A) : Prop :=
  forall st, world (snd (m st)) = world st /\ cmds (snd (m st)) = cmds st.

Definition is_set_project (c : string) : bool :=
  prefix "gcloud config set project " c.

(** Two worlds that differ at most by the white space around what the
    commands write, and states that differ at most by such worlds. *)
Definition world_agree (w w' : World) : Prop :=
  forall h c,
    returncode (w h c) = returncode (w' h c)
    /\ stderr (w h c) = stderr (w' h c)
    /\ Py.strip (stdout (w h c)) = Py.strip (stdout (w' h c)).

Definition agree (st st' : State) : Prop :=
  world_agree (world st) (world st')
  /\ cmds st = cmds st' /\ stdin st = stdin st' /\ log st = log st'.

Definition respects {A} (m : M A) : Prop :=
  forall st st',
    agree st st' ->
    fst (m st) = fst (m st') /\ agree (snd (m st)) (snd (m st')).

(** [w'] is [w], except that current-project queries that [w] answers with
    white space only are answered with nothing. *)
Definition blank_as_unset (w w' : World) : Prop :=
  forall h c,
    w' h c = w h c
    \/ (c = get_project_command
        /\ all_space (stdout (w h c)) = true
        /\ w' h c = mkProcess EmptyString (stderr (w h c)) (returncode (w h c))).

(** *** Three statements that the script does not satisfy as they stand *)

(** The finder returns the first matching data row, and [(None, None)]
    whenever no data row matches. *)
Definition finder_claim (st : State) : Prop :=
  returncode (world st (cmds st) billing_list_command) = 0%Z ->
  let data := tl (yielded (Csv.reader (listing_output st))) in
  (forall pre name id post,
      data = pre ++ [name; id; "True"] :: post ->
      substring_of "Trial Billing Account" name ->
      (forall r, In r pre -> ~ trial_row r) ->
      result find_active_billing_account st = Return (Some name, Some id))
  /\ ((forall r, In r data -> ~ trial_row r) ->
      result find_active_billing_account st = Return (None, None)).

(** The selection loop raises nothing, returns exactly when some line is a
    valid choice, and then returns the chosen project. *)
Definition selection_claim (projects : list row) (lines : list string) : Prop :=
  let run := selection_loop projects lines [] in
  (forall e, fst run <> Raise e)
  /\ ((exists project_id, fst run = Return project_id)
      <-> Exists (valid_choice (List.length projects)) lines)
  /\ (forall bad line rest k,
        lines = bad ++ line :: rest ->
        Forall (fun l => ~ valid_choice (List.length projects) l) bad ->
        Py.int line = Some k ->
        (1 <= k <= Z.of_nat (List.length projects))%Z ->
        exists project_id name,
          nth_error projects (Z.to_nat (k - 1)) = Some [project_id; name]
          /\ run = (Return project_id,
                    (rest, reprompts projects bad
                           ++ [Prompt (selection_prompt projects)]))).

(** Whenever the finder returns a pair and a project is configured, the
    linking command runs with them. *)
Definition linking_claim (st : State) : Prop :=
  forall d b p,
    result find_active_billing_account st = Return (Some d, Some b) ->
    current_project (after_command st billing_list_command []) = p ->
    p <> EmptyString ->
    cmds (snd (main st))
    = cmds st ++ [billing_list_command; get_project_command; link_command p b].

(** *** Worlds and data of the examples *)

(** A tool that answers every command alike. *)
Definition answering (text : string) : World :=
  fun _ _ => mkProcess text EmptyString 0.

Definition failing (text err : string) (code : Z) : World :=
  fun _ _ => mkProcess text err code.

(** A tool that knows the three queries and accepts every other command;
    the current project is [project], or the one set by the last command if
    a project has been set. *)
Definition gcloud (billing project projects : string) : World :=
  fun history c =>
    if String.eqb c billing_list_command then mkProcess billing EmptyString 0
    else if String.eqb c project_list_command
    then mkProcess projects EmptyString 0
    else if String.eqb c get_project_command then
      match rev history with
      | last :: _ =>
          if is_set_project last
          then mkProcess (substring 26 (String.length last) last ++ LF)
                         EmptyString 0
          else mkProcess project EmptyString 0
      | [] => mkProcess project EmptyString 0
      end
    else mkProcess EmptyString EmptyString 0.

Definition header_row : string := "display_name,name,open".

Definition example_listing : string :=
  header_row ++ LF
  ++ "Closed Trial Billing Account,billingAccounts/OLD000,False" ++ LF
  ++ "broken row" ++ LF
  ++ "My Trial Billing Account,billingAccounts/ABC123,True" ++ LF.

(** A listing whose only data line is one field of 131073 characters, one
    more than [csv.field_size_limit()] allows. *)
Definition oversized_field : string :=
  replicate (N.to_nat (Csv.field_limit + 1)) "a".

Definition oversized_listing : string :=
  header_row ++ LF ++ oversized_field.

Definition one_account : string :=
  header_row ++ LF ++ "My Trial Billing Account,billingAccounts/ABC123,True" ++ LF.

Definition two_projects : list row :=
  [["proj-1"; "Name One"]; ["proj-2"; "Name Two"]].

Definition two_projects_listing : string :=
  "project_id,name" ++ LF ++ "proj-1,Name One" ++ LF ++ "proj-2,Name Two" ++ LF.

(** A project listing whose second data row has one field only. *)
Definition malformed_projects_listing : string :=
  "project_id,name" ++ LF ++ "proj-1,Name One" ++ LF ++ "proj-2" ++ LF.

(** The lines of the menu that [print_menu] writes, numbered from [i + 1]. *)
Fixpoint menu_lines (i : nat) (projects : list row) : list event :=
  match projects with
  | [] => []
  | r :: rest =>
      Print ("  " ++ Py.str_of_nat (i + 1) ++ ": " ++ nth 0 r EmptyString
             ++ " (" ++ nth 1 r EmptyString ++ ")")
      :: menu_lines (S i) rest
  end.

(** A computation that takes the lines it reads from the front of standard
    input. *)
Definition reads {A} (m : M A) : Prop :=
  forall st, exists used, stdin st = used ++ stdin (snd (m st)).

(** A tool that lists one trial account and two projects, has no current
    project at first, answers the command that sets the project with the
    status [set_status], and afterwards reports [confirmed] as the current
    project. *)
Definition gcloud_where (set_status : Z) (confirmed : string) : World :=
  fun history c =>
    if String.eqb c billing_list_command
    then mkProcess one_account EmptyString 0
    else if String.eqb c project_list_command
    then mkProcess two_projects_listing EmptyString 0
    else if String.eqb c get_project_command then
      match rev history with
      | last :: _ =>
          if is_set_project last then mkProcess confirmed EmptyString 0
          else mkProcess EmptyString EmptyString 0
      | [] => mkProcess EmptyString EmptyString 0
      end
    else if is_set_project c then mkProcess EmptyString "refused" set_status
    else mkProcess EmptyString EmptyString 0.

(** ** Text *)

Lemma prefix_iff (p s : string) :
  prefix p s = true <-> exists b, s = (p ++ b)%string.
Proof.
  revert s; induction p as [|c p IH]; intros s; simpl.
  - split; [intros _; exists s; reflexivity | intros _; destruct s; reflexivity].
  - destruct s as [|d s]; [split; [discriminate | intros [b H]; discriminate]|].
    simpl. destruct (ascii_dec c d) as [->|Hne].
    + rewrite IH. split; intros [b H]; exists b; simpl in *; congruence.
    + split; [discriminate | intros [b H]; simpl in H; congruence].
Qed.

Lemma prefix_app (p s : string) : prefix p (p ++ s)%string = true.
Proof. apply prefix_iff. now exists s. Qed.

Lemma contains_iff (sub s : string) :
  Py.contains sub s = true <-> substring_of sub s.
Proof.
  unfold substring_of. induction s as [|c s IH].
  - cbn [Py.contains]. rewrite orb_false_r, prefix_iff. split.
    + intros [b H]. exists EmptyString, b. exact H.
    + intros [a [b H]]. destruct a; [exists b; exact H | discriminate].
  - cbn [Py.contains]. rewrite orb_true_iff, IH, prefix_iff. split.
    + intros [[b H] | [a [b H]]].
      * exists EmptyString, b; exact H.
      * exists (String c a), b. simpl. now rewrite H.
    + intros [a [b H]]. destruct a as [|d a].
      * left; exists b; exact H.
      * right; exists a, b. now inversion H.
Qed.

Lemma lstrip_spec s :
  exists a, s = (a ++ Py.lstrip s)%string /\ all_space a = true
            /\ not_space (first_char (Py.lstrip s)).
Proof.
  induction s as [|c s [a (Hs & Ha & Hf)]].
  - exists EmptyString. simpl. auto.
  - simpl. destruct (Py.isspace c) eqn:Hc.
    + exists (String c a). simpl. rewrite Hc, Ha, <- Hs. auto.
    + exists EmptyString. simpl. auto.
Qed.

Lemma rstrip_spec s :
  exists b, s = (Py.rstrip s ++ b)%string /\ all_space b = true
            /\ not_space (last_char (Py.rstrip s))
            /\ (Py.rstrip s = EmptyString
                \/ first_char (Py.rstrip s) = first_char s).
Proof.
  induction s as [|c s [b (Hs & Hb & Hl & Hf)]].
  - exists EmptyString. simpl. auto.
  - simpl. destruct (Py.rstrip s) as [|d t] eqn:Hr.
    + destruct (Py.isspace c) eqn:Hc.
      * exists (String c b). simpl in *. subst b. rewrite Hc, Hb. auto.
      * exists b. simpl in *. subst b. repeat split; auto.
    + exists b. simpl in *. rewrite <- Hs. repeat split; auto.
Qed.

(** [strip] removes the white space of the two ends and nothing else. *)
Lemma strip_spec s : trimmed_from (Py.strip s) s.
Proof.
  unfold Py.strip.
  destruct (lstrip_spec s) as [a (Hs & Ha & Hf)].
  destruct (rstrip_spec (Py.lstrip s)) as [b (Ht & Hb & Hl & Hfirst)].
  exists a, b. split; [|repeat split; auto].
  - rewrite <- Ht. exact Hs.
  - destruct Hfirst as [-> | ->]; [exact I | exact Hf].
Qed.

Lemma lstrip_all_space s : all_space s = true -> Py.lstrip s = EmptyString.
Proof.
  induction s as [|c s IH]; simpl; [reflexivity|].
  intros [Hc Hs]%andb_prop. now rewrite Hc, (IH Hs).
Qed.

Lemma strip_all_space s : all_space s = true -> Py.strip s = EmptyString.
Proof.
  intros H. unfold Py.strip. now rewrite (lstrip_all_space s H).
Qed.

Lemma strip_empty_all_space s : Py.strip s = EmptyString -> all_space s = true.
Proof.
  intros H. destruct (strip_spec s) as [a [b (Hs & Ha & Hb & _)]].
  rewrite H in Hs. simpl in Hs. subst s.
  clear H. induction a as [|c a IH]; simpl in *; [exact Hb|].
  apply andb_prop in Ha as [Hc Ha]. rewrite Hc. simpl. auto.
Qed.

(** ** Lists and iterators *)

Lemma find_first {A} (f : A -> bool) pre x post :
  f x = true -> (forall y, In y pre -> f y = false) ->
  List.find f (pre ++ x :: post) = Some x.
Proof.
  intros Hx. induction pre as [|y pre IH]; intros Hpre; simpl.
  - now rewrite Hx.
  - rewrite (Hpre y (or_introl eq_refl)). apply IH.
    intros z Hz. apply Hpre. now right.
Qed.

Lemma find_none {A} (f : A -> bool) l :
  (forall y, In y l -> f y = false) -> List.find f l = None.
Proof.
  induction l as [|y l IH]; intros Hl; simpl; [reflexivity|].
  rewrite (Hl y (or_introl eq_refl)). apply IH.
  intros z Hz. apply Hl. now right.
Qed.

Lemma yielded_after_header output :
  yielded (after_header output) = tl (yielded (Csv.reader output)).
Proof. unfold after_header. destruct (Csv.reader output); reflexivity. Qed.

Lemma raises_after_header output :
  raises (after_header output) = raises (Csv.reader output).
Proof. unfold after_header. destruct (Csv.reader output); reflexivity. Qed.


Lemma is_trial_account_iff r : is_trial_account r = true <-> trial_row r.
Proof.
  unfold is_trial_account, trial_row. split.
  - intros [[Hlen Hopen]%andb_prop Hname]%andb_prop.
    destruct r as [|name [|id [|open [|]]]]; try discriminate.
    simpl in *. apply String.eqb_eq in Hopen. subst open.
    exists name, id. split; [reflexivity | now apply contains_iff].
  - intros (name & id & -> & Hname). cbn -[Py.contains].
    now apply contains_iff.
Qed.

Lemma not_trial_row r : ~ trial_row r -> is_trial_account r = false.
Proof.
  intros H. destruct (is_trial_account r) eqn:E; [|reflexivity].
  now apply is_trial_account_iff in E.
Qed.

(** A row whose field count is not three is passed over. *)
Lemma first_trial_account_skips r rest :
  List.length r <> 3%nat ->
  first_trial_account (Csv.Yields r rest) = first_trial_account rest.
Proof.
  intros H. cbn [first_trial_account]. unfold is_trial_account.
  apply Nat.eqb_neq in H. now rewrite H.
Qed.

Lemma first_trial_account_eq it :
  first_trial_account it =
  match List.find is_trial_account (yielded it) with
  | Some r => Return (Some (nth 0 r EmptyString), Some (nth 1 r EmptyString))
  | None => if raises it then Raise CsvError else Return (None, None)
  end.
Proof.
  induction it as [| |r rest IH]; simpl; try reflexivity.
  destruct (is_trial_account r); [reflexivity | exact IH].
Qed.

Lemma first_trial_account_no_exit it code :
  first_trial_account it <> Raise (SystemExit code).
Proof.
  induction it as [| |r rest IH]; cbn; try discriminate.
  destruct (is_trial_account r); [discriminate | exact IH].
Qed.

(** ** The functions of the script, one step at a time *)

Ltac states :=
  unfold before_selection, before_query, after_command, logged;
  cbn [fst snd world cmds stdin log exit_status];
  rewrite <- ?app_assoc; cbn [app]; try reflexivity.

Lemma emit_eq e st : emit e st = (Return tt, logged st [e]).
Proof. reflexivity. Qed.

Lemma logged_logged st evs evs' :
  logged (logged st evs) evs' = logged st (evs ++ evs').
Proof. unfold logged. cbn. now rewrite <- app_assoc. Qed.

Lemma run_gcloud_command_eq command check st :
  run_gcloud_command command check st =
  let process := world st (cmds st) command in
  if check && negb (returncode process =? 0)%Z
  then (Raise (SystemExit 1),
        after_command st command
          [PrintErr ("Error running command: " ++ command);
           PrintErr ("Stderr: " ++ stderr process)])
  else (Return (Py.strip (stdout process)), after_command st command []).
Proof.
  unfold run_gcloud_command, bind, subprocess_run, after_command. cbn zeta.
  destruct (check && negb (returncode (world st (cmds st) command) =? 0)%Z).
  - unfold print_err, emit, sys_exit, raise, bind. cbn.
    rewrite <- !app_assoc. reflexivity.
  - reflexivity.
Qed.

Lemma find_active_billing_account_eq st :
  find_active_billing_account st =
  let process := world st (cmds st) billing_list_command in
  if (returncode process =? 0)%Z
  then (first_trial_account (after_header (Py.strip (stdout process))),
        after_command st billing_list_command [])
  else (Raise (SystemExit 1),
        after_command st billing_list_command
          [PrintErr ("Error running command: " ++ billing_list_command);
           PrintErr ("Stderr: " ++ stderr process)]).
Proof.
  unfold find_active_billing_account, bind.
  rewrite run_gcloud_command_eq. cbn zeta.
  destruct (returncode _ =? 0)%Z; cbn [andb negb]; [|reflexivity].
  unfold after_header.
  destruct (Py.strip _) as [|c s]; [reflexivity|]. cbn [Py.not_str].
  destruct (Csv.reader (String c s)); reflexivity.
Qed.

Lemma result_find_active_billing_account st :
  returncode (world st (cmds st) billing_list_command) = 0%Z ->
  result find_active_billing_account st =
  first_trial_account (after_header (listing_output st)).
Proof.
  intros H. unfold result. rewrite find_active_billing_account_eq. cbn zeta.
  now rewrite H.
Qed.

Lemma result_find_logged st evs :
  result find_active_billing_account (logged st evs)
  = result find_active_billing_account st.
Proof.
  unfold result. rewrite !find_active_billing_account_eq. cbn zeta.
  cbn [world cmds logged]. destruct (returncode _ =? 0)%Z; reflexivity.
Qed.

Lemma find_returns st v :
  result find_active_billing_account st = Return v ->
  forall evs,
    find_active_billing_account (logged st evs)
    = (Return v, after_command (logged st evs) billing_list_command []).
Proof.
  intros H evs. pose proof (result_find_logged st evs) as E.
  rewrite H in E. unfold result in E.
  rewrite find_active_billing_account_eq in *. cbn zeta in *.
  destruct (returncode _ =? 0)%Z; cbn [fst] in E; [|discriminate].
  now rewrite E.
Qed.

Lemma get_current_project_eq st :
  get_current_project st
  = (Return (current_project st), after_command st get_project_command []).
Proof. unfold get_current_project. now rewrite run_gcloud_command_eq. Qed.

Lemma select_project_eq st :
  select_project st =
  let process := world st (cmds st) project_list_command in
  let st1 := logged st [Print "Fetching available projects..."] in
  if (returncode process =? 0)%Z then
    let st2 := after_command st1 project_list_command [] in
    match Csv.to_list (after_header (projects_output st)) with
    | None => (Raise CsvError, st2)
    | Some [] => (Return None, logged st2 [PrintErr "No projects found."])
    | Some projects => offer projects st2
    end
  else
    (Raise (SystemExit 1),
     after_command st1 project_list_command
       [PrintErr ("Error running command: " ++ project_list_command);
        PrintErr ("Stderr: " ++ stderr process)]).
Proof.
  unfold select_project, bind at 1, print. rewrite emit_eq.
  unfold bind at 1. rewrite run_gcloud_command_eq. cbn zeta.
  cbn [world cmds logged].
  destruct (returncode _ =? 0)%Z; cbn [andb negb]; [|reflexivity].
  unfold projects_output, after_header.
  destruct (Py.strip _) as [|c s]; [reflexivity|]. cbn [Py.not_str].
  destruct (Csv.reader (String c s)) as [| |header rest]; try reflexivity.
  destruct (Csv.to_list rest) as [[|r projects]|]; reflexivity.
Qed.


Lemma print_menu_malformed projects : forall i st,
  Exists (fun r => List.length r <> 2%nat) projects ->
  exists st', print_menu i projects st = (Raise ValueError, st').
Proof.
  induction projects as [|r projects IH]; intros i st H.
  - inversion H.
  - destruct r as [|project_id [|name [|extra r]]];
      try (eexists; reflexivity).
    cbn [print_menu]. unfold bind, print. rewrite emit_eq.
    apply IH. inversion H as [? ? Hr | ? ? Hrest]; [|exact Hrest].
    cbn in Hr. congruence.
Qed.

Lemma finish_eq display_name billing_id project_id st :
  finish display_name billing_id project_id st =
  if Py.not_str project_id then
    (Raise (SystemExit 1), logged st [PrintErr "Failed to set project. Exiting."])
  else
    let st1 :=
      logged st
        [Print ("Using project: " ++ project_id);
         Print ("Linking project " ++ project_id ++ " to billing account "
                ++ Py.format_opt display_name
                ++ " (" ++ Py.format_opt billing_id ++ ")...")] in
    let link := link_command project_id (Py.format_opt billing_id) in
    let process := world st (cmds st) link in
    if (returncode process =? 0)%Z then
      (Return tt,
       logged (after_command st1 link []) [Print "Successfully linked project."])
    else
      (Raise (SystemExit 1),
       after_command st1 link
         [PrintErr ("Error running command: " ++ link);
          PrintErr ("Stderr: " ++ stderr process)]).
Proof.
  unfold finish. destruct (Py.not_str project_id); [reflexivity|].
  unfold bind at 1, print at 1. rewrite emit_eq.
  unfold bind at 1, print at 1. rewrite emit_eq. rewrite logged_logged.
  cbn [app]. unfold bind at 1, link_billing_account. unfold bind at 1.
  rewrite run_gcloud_command_eq. cbn zeta. cbn [world cmds logged].
  destruct (returncode _ =? 0)%Z; reflexivity.
Qed.

Lemma main_eq st :
  main st =
  match find_active_billing_account
          (logged st [Print "Finding an active billing account..."]) with
  | (Raise e, st1) => (Raise e, st1)
  | (Return (display_name, billing_id), st1) =>
      if Py.not_opt billing_id then
        (Raise (SystemExit 1),
         logged st1 [PrintErr "Error: No active billing account with 'Trial Billing Account' in the name found."])
      else
        let st2 :=
          logged st1
            [Print ("Found billing account: " ++ Py.format_opt display_name
                    ++ " (" ++ Py.format_opt billing_id ++ ")");
             Print "Finding current project..."] in
        let st3 := after_command st2 get_project_command [] in
        if Py.not_str (current_project st2) then
          match select_project
                  (logged st3
                     [Print "No active gcloud project found. Let's select one."])
          with
          | (Raise e, st5) => (Raise e, st5)
          | (Return selected, st5) =>
              if Py.not_opt selected then
                (Raise (SystemExit 1),
                 logged st5 [PrintErr "No project selected. Exiting."])
              else
                match run_gcloud_command
                        (set_project_command (Py.format_opt selected)) true
                        (logged st5
                           [Print ("Setting project '"
                                   ++ Py.format_opt selected
                                   ++ "' as current...")])
                with
                | (Raise e, st7) => (Raise e, st7)
                | (Return _, st7) =>
                    finish display_name billing_id (current_project st7)
                      (after_command st7 get_project_command [])
                end
          end
        else finish display_name billing_id (current_project st2) st3
  end.
Proof.
  unfold main. unfold bind at 1. unfold print at 1. rewrite emit_eq.
  unfold bind at 1.
  destruct (find_active_billing_account _) as [[[display_name billing_id]|e] st1];
    [|reflexivity].
  destruct (Py.not_opt billing_id) eqn:Hb; [reflexivity|].
  unfold bind at 1, print at 1. rewrite emit_eq.
  unfold bind at 1, print at 1. rewrite emit_eq. rewrite logged_logged.
  cbn [app]. unfold bind at 1. rewrite get_current_project_eq. cbn zeta.
  unfold bind at 1.
  destruct (Py.not_str (current_project _)) eqn:Hp.
  - unfold bind at 1, print at 1. rewrite emit_eq. unfold bind at 1.
    destruct (select_project _) as [[selected|e] st5]; [|reflexivity].
    destruct (Py.not_opt selected) eqn:Hs; [reflexivity|].
    unfold bind at 1, print at 1. rewrite emit_eq. unfold bind at 1.
    destruct (run_gcloud_command _ true _) as [[x|e] st7]; [|reflexivity].
    rewrite get_current_project_eq. reflexivity.
  - unfold ret. unfold finish. rewrite Hp. reflexivity.
Qed.

Lemma main_found st display_name billing_id :
  result find_active_billing_account st = Return (display_name, billing_id) ->
  Py.not_opt billing_id = false ->
  main st =
  let st2 := before_query st display_name billing_id in
  if Py.not_str (current_project st2) then
    match select_project (before_selection st display_name billing_id) with
    | (Raise e, st5) => (Raise e, st5)
    | (Return selected, st5) =>
        if Py.not_opt selected then
          (Raise (SystemExit 1),
           logged st5 [PrintErr "No project selected. Exiting."])
        else
          match run_gcloud_command
                  (set_project_command (Py.format_opt selected)) true
                  (logged st5
                     [Print ("Setting project '" ++ Py.format_opt selected
                             ++ "' as current...")])
          with
          | (Raise e, st7) => (Raise e, st7)
          | (Return _, st7) =>
              finish display_name billing_id (current_project st7)
                (after_command st7 get_project_command [])
          end
    end
  else
    finish display_name billing_id (current_project st2)
      (after_command st2 get_project_command []).
Proof.
  intros Hfind Hb. rewrite main_eq, (find_returns st _ Hfind), Hb. reflexivity.
Qed.

(** ** The commands a computation runs *)

Lemma silent_ret {A} (a : A) : silent (ret a).
Proof. now intros st. Qed.

Lemma silent_pure {A} (o : outcome A) : silent (fun st => (o, st)).
Proof. now intros st. Qed.

Lemma silent_emit e : silent (emit e).
Proof. now intros st. Qed.

Lemma silent_bind {A B} (m : M A) (k : A -> M B) :
  silent m -> (forall a, silent (k a)) -> silent (bind m k).
Proof.
  intros Hm Hk st. specialize (Hm st). unfold bind.
  destruct (m st) as [[a|e] st']; cbn [snd] in *; [|exact Hm].
  destruct (Hk a st') as [Hw Hc]. rewrite Hw, Hc. exact Hm.
Qed.

Lemma silent_print_menu projects : forall i, silent (print_menu i projects).
Proof.
  induction projects as [|r projects IH]; intros i; [apply silent_ret|].
  destruct r as [|project_id [|name [|extra r]]];
    try apply (silent_pure (Raise ValueError)).
  apply silent_bind; [apply silent_emit | intros _; apply IH].
Qed.

Lemma silent_while_true projects : silent (while_true projects).
Proof.
  intros st. unfold while_true.
  now destruct (selection_loop projects (stdin st) (log st)) as [o [lines l]].
Qed.

Lemma silent_offer projects : silent (offer projects).
Proof.
  apply silent_bind; [apply silent_emit | intros _].
  apply silent_bind; [apply silent_print_menu | intros _].
  apply silent_bind; [apply silent_while_true | intros p; apply silent_ret].
Qed.

Lemma select_project_frame st :
  world (snd (select_project st)) = world st
  /\ cmds (snd (select_project st)) = cmds st ++ [project_list_command].
Proof.
  rewrite select_project_eq. cbn zeta.
  destruct (returncode _ =? 0)%Z; [|now split].
  destruct (Csv.to_list _) as [[|r projects]|]; try now split.
  destruct (silent_offer (r :: projects)
              (after_command (logged st [Print "Fetching available projects..."])
                             project_list_command [])) as [Hw Hc].
  rewrite Hw, Hc. now split.
Qed.

Lemma find_frame st :
  world (snd (find_active_billing_account st)) = world st
  /\ cmds (snd (find_active_billing_account st))
     = cmds st ++ [billing_list_command].
Proof.
  rewrite find_active_billing_account_eq. cbn zeta.
  now destruct (returncode _ =? 0)%Z.
Qed.

Lemma run_frame command check st :
  world (snd (run_gcloud_command command check st)) = world st
  /\ cmds (snd (run_gcloud_command command check st)) = cmds st ++ [command].
Proof.
  rewrite run_gcloud_command_eq. cbn zeta. now destruct (check && _).
Qed.

Lemma finish_frame d b p st :
  cmds (snd (finish d b p st)) = cmds st
  \/ cmds (snd (finish d b p st))
     = cmds st ++ [link_command p (Py.format_opt b)].
Proof.
  rewrite finish_eq. destruct (Py.not_str p); [now left|]. cbn zeta.
  right. now destruct (returncode _ =? 0)%Z.
Qed.

Lemma is_set_project_link p b : is_set_project (link_command p b) = false.
Proof. reflexivity. Qed.

(** ** Fatal diagnostics come last *)

Lemma clean_app l l' : clean l -> clean l' -> clean (l ++ l').
Proof. intros H H'. apply Forall_app. now split. Qed.

Lemma fail_fast_ret {A} (a : A) : fail_fast (ret a).
Proof. intros st H. exact H. Qed.

Lemma fail_fast_emit e : fatal e = false -> fail_fast (emit e).
Proof.
  intros He st H. cbn. apply clean_app; [exact H | now repeat constructor].
Qed.

Lemma fail_fast_bind {A B} (m : M A) (k : A -> M B) :
  fail_fast m -> (forall a, fail_fast (k a)) -> fail_fast (bind m k).
Proof.
  intros Hm Hk st H. specialize (Hm st H). unfold bind.
  destruct (m st) as [[a|e] st']; cbn [fst snd] in *.
  - apply Hk. exact Hm.
  - exact Hm.
Qed.

Lemma fail_fast_die {A} msg :
  fatal (PrintErr msg) = true ->
  fail_fast (A:=A) (print_err msg ;; sys_exit 1).
Proof.
  intros Hmsg st H. cbn. split; [reflexivity|].
  exists (log st), (PrintErr msg). auto.
Qed.

Lemma fail_fast_pure {A} (o : outcome A) :
  (forall code, o <> Raise (SystemExit code)) ->
  fail_fast (fun st => (o, st)).
Proof.
  intros Ho st H. cbn. destruct o as [a|[code| | | |]]; try exact H.
  now destruct (Ho code).
Qed.

Lemma fail_fast_run_gcloud_command command check :
  fail_fast (run_gcloud_command command check).
Proof.
  intros st H. rewrite run_gcloud_command_eq. cbn zeta.
  destruct (check && _); cbn [fst snd after_command log halted].
  - split; [reflexivity|].
    exists (log st ++ [Subprocess command;
                       PrintErr ("Error running command: " ++ command)]),
           (PrintErr ("Stderr: " ++ stderr (world st (cmds st) command))).
    split; [now rewrite <- app_assoc|]. split.
    + apply clean_app; [exact H | now repeat constructor].
    + cbn [fatal]. now rewrite prefix_app.
  - apply clean_app; [exact H | now repeat constructor].
Qed.

Lemma fail_fast_find_active_billing_account :
  fail_fast find_active_billing_account.
Proof.
  apply fail_fast_bind; [apply fail_fast_run_gcloud_command|].
  intros output. destruct (Py.not_str output); [apply fail_fast_ret|].
  destruct (Csv.reader output) as [| |header rest].
  - apply fail_fast_ret.
  - apply (fail_fast_pure (Raise CsvError)). discriminate.
  - apply fail_fast_pure. apply first_trial_account_no_exit.
Qed.

Lemma fail_fast_print_menu projects : forall i, fail_fast (print_menu i projects).
Proof.
  induction projects as [|r projects IH]; intros i; [apply fail_fast_ret|].
  destruct r as [|project_id [|name [|extra r]]];
    try (apply (fail_fast_pure (Raise ValueError)); discriminate).
  apply fail_fast_bind; [now apply fail_fast_emit | intros _; apply IH].
Qed.

Lemma selection_loop_clean projects lines : forall log,
  clean log ->
  clean (snd (snd (selection_loop projects lines log)))
  /\ forall code,
       fst (selection_loop projects lines log) <> Raise (SystemExit code).
Proof.
  induction lines as [|line lines IH]; intros log H; cbn [selection_loop].
  - split; [|discriminate]. apply clean_app; [exact H | now repeat constructor].
  - destruct (Py.int line) as [k|].
    + destruct (_ && _).
      * destruct (nth_error _ _) as [[|project_id r]|]; cbn;
          (split; [|discriminate]);
          (apply clean_app; [exact H | now repeat constructor]).
      * apply IH. repeat apply clean_app; try exact H; now repeat constructor.
    + apply IH. repeat apply clean_app; try exact H; now repeat constructor.
Qed.

Lemma fail_fast_while_true projects : fail_fast (while_true projects).
Proof.
  intros st H. unfold while_true.
  destruct (selection_loop_clean projects (stdin st) (log st) H) as [Hc Ho].
  destruct (selection_loop projects (stdin st) (log st)) as [o [lines l]].
  cbn in *. destruct o as [a|[code| | | |]]; try exact Hc.
  now destruct (Ho code).
Qed.

Lemma fail_fast_select_project : fail_fast select_project.
Proof.
  unfold select_project.
  apply fail_fast_bind; [now apply fail_fast_emit | intros _].
  apply fail_fast_bind; [apply fail_fast_run_gcloud_command | intros output].
  assert (Hnone : fail_fast (print_err "No projects found." ;; ret (@None string))).
  { apply fail_fast_bind; [now apply fail_fast_emit | intros _; apply fail_fast_ret]. }
  destruct (Py.not_str output); [exact Hnone|].
  destruct (Csv.reader output) as [| |header rest]; [exact Hnone | |].
  - apply (fail_fast_pure (Raise CsvError)). discriminate.
  - destruct (Csv.to_list rest) as [[|r projects]|]; [exact Hnone | |].
    + apply fail_fast_bind; [now apply fail_fast_emit | intros _].
      apply fail_fast_bind; [apply fail_fast_print_menu | intros _].
      apply fail_fast_bind; [apply fail_fast_while_true | intros project_id].
      apply fail_fast_ret.
    + apply (fail_fast_pure (Raise CsvError)). discriminate.
Qed.

Lemma fail_fast_main : fail_fast main.
Proof.
  unfold main.
  apply fail_fast_bind; [now apply fail_fast_emit | intros _].
  apply fail_fast_bind; [apply fail_fast_find_active_billing_account|].
  intros [display_name billing_id].
  destruct (Py.not_opt billing_id); [now apply fail_fast_die|].
  apply fail_fast_bind; [now apply fail_fast_emit | intros _].
  apply fail_fast_bind; [now apply fail_fast_emit | intros _].
  apply fail_fast_bind; [apply fail_fast_run_gcloud_command | intros project_id].
  apply fail_fast_bind.
  - destruct (Py.not_str project_id); [|apply fail_fast_ret].
    apply fail_fast_bind; [now apply fail_fast_emit | intros _].
    apply fail_fast_bind; [apply fail_fast_select_project | intros selected].
    destruct (Py.not_opt selected); [now apply fail_fast_die|].
    apply fail_fast_bind; [now apply fail_fast_emit | intros _].
    apply fail_fast_bind; [apply fail_fast_run_gcloud_command | intros _].
    apply fail_fast_run_gcloud_command.
  - intros project_id'.
    destruct (Py.not_str project_id'); [now apply fail_fast_die|].
    apply fail_fast_bind; [now apply fail_fast_emit | intros _].
    apply fail_fast_bind; [now apply fail_fast_emit | intros _].
    apply fail_fast_bind; [|intros _; now apply fail_fast_emit].
    apply fail_fast_bind; [apply fail_fast_run_gcloud_command | intros _].
    apply fail_fast_ret.
Qed.



(** ** The script reads command output through [strip] only *)

Lemma respects_ret {A} (a : A) : respects (ret a).
Proof. now intros st st' H. Qed.

Lemma respects_pure {A} (o : outcome A) : respects (fun st => (o, st)).
Proof. now intros st st' H. Qed.

Lemma respects_emit e : respects (emit e).
Proof.
  intros st st' (Hw & Hc & Hi & Hl). split; [reflexivity|].
  cbn. now rewrite Hl.
Qed.

Lemma respects_bind {A B} (m : M A) (k : A -> M B) :
  respects m -> (forall a, respects (k a)) -> respects (bind m k).
Proof.
  intros Hm Hk st st' H. destruct (Hm st st' H) as [Ho Hs]. unfold bind.
  destruct (m st) as [o s], (m st') as [o' s']. cbn [fst snd] in *. subst o'.
  destruct o as [a|e]; [now apply Hk | now split].
Qed.

Lemma respects_run_gcloud_command command check :
  respects (run_gcloud_command command check).
Proof.
  intros st st' (Hw & Hc & Hi & Hl). rewrite !run_gcloud_command_eq.
  cbn zeta. rewrite <- Hc. destruct (Hw (cmds st) command) as (Hr & He & Ho).
  rewrite <- Hr, <- He, <- Ho.
  destruct (check && _); (split; [reflexivity|]);
    unfold agree, after_command; cbn; now rewrite Hc, Hi, Hl.
Qed.

Lemma respects_print_menu projects : forall i, respects (print_menu i projects).
Proof.
  induction projects as [|r projects IH]; intros i; [apply respects_ret|].
  destruct r as [|project_id [|name [|extra r]]];
    try apply (respects_pure (Raise ValueError)).
  apply respects_bind; [apply respects_emit | intros _; apply IH].
Qed.

Lemma respects_while_true projects : respects (while_true projects).
Proof.
  intros st st' (Hw & Hc & Hi & Hl). unfold while_true.
  rewrite <- Hi, <- Hl.
  destruct (selection_loop projects (stdin st) (log st)) as [o [lines l]].
  unfold agree. cbn. auto.
Qed.

Lemma respects_find_active_billing_account :
  respects find_active_billing_account.
Proof.
  apply respects_bind; [apply respects_run_gcloud_command | intros output].
  destruct (Py.not_str output); [apply respects_ret|].
  destruct (Csv.reader output); try apply respects_ret; apply respects_pure.
Qed.

Lemma respects_select_project : respects select_project.
Proof.
  unfold select_project.
  apply respects_bind; [apply respects_emit | intros _].
  apply respects_bind; [apply respects_run_gcloud_command | intros output].
  assert (Hnone : respects (print_err "No projects found." ;; ret (@None string))).
  { apply respects_bind; [apply respects_emit | intros _; apply respects_ret]. }
  destruct (Py.not_str output); [exact Hnone|].
  destruct (Csv.reader output) as [| |header rest];
    [exact Hnone | apply (respects_pure (Raise CsvError)) |].
  destruct (Csv.to_list rest) as [[|r projects]|];
    [exact Hnone | | apply (respects_pure (Raise CsvError))].
  apply respects_bind; [apply respects_emit | intros _].
  apply respects_bind; [apply respects_print_menu | intros _].
  apply respects_bind; [apply respects_while_true | intros project_id].
  apply respects_ret.
Qed.

Lemma respects_main : respects main.
Proof.
  unfold main.
  apply respects_bind; [apply respects_emit | intros _].
  apply respects_bind; [apply respects_find_active_billing_account|].
  intros [display_name billing_id].
  assert (Hdie : forall msg, respects (A:=unit) (print_err msg ;; sys_exit 1)).
  { intros msg. apply respects_bind; [apply respects_emit|].
    intros _. apply (respects_pure (Raise (SystemExit 1))). }
  destruct (Py.not_opt billing_id); [apply Hdie|].
  apply respects_bind; [apply respects_emit | intros _].
  apply respects_bind; [apply respects_emit | intros _].
  apply respects_bind; [apply respects_run_gcloud_command | intros project_id].
  apply respects_bind.
  - destruct (Py.not_str project_id); [|apply respects_ret].
    apply respects_bind; [apply respects_emit | intros _].
    apply respects_bind; [apply respects_select_project | intros selected].
    destruct (Py.not_opt selected).
    + apply respects_bind; [apply respects_emit|].
      intros _. apply (respects_pure (Raise (SystemExit 1))).
    + apply respects_bind; [apply respects_emit | intros _].
      apply respects_bind; [apply respects_run_gcloud_command | intros _].
      apply respects_run_gcloud_command.
  - intros project_id'.
    destruct (Py.not_str project_id'); [apply Hdie|].
    apply respects_bind; [apply respects_emit | intros _].
    apply respects_bind; [apply respects_emit | intros _].
    apply respects_bind; [|intros _; apply respects_emit].
    apply respects_bind; [apply respects_run_gcloud_command | intros _].
    apply respects_ret.
Qed.

Lemma blank_as_unset_agree w w' : blank_as_unset w w' -> world_agree w w'.
Proof.
  intros H h c. destruct (H h c) as [E|(Hc & Hblank & E)]; rewrite E.
  - repeat split.
  - cbn. repeat split. now apply strip_all_space.
Qed.

Lemma main_reaches_selection st d b :
  result find_active_billing_account st = Return (d, b) ->
  Py.not_opt b = false ->
  current_project (after_command st billing_list_command []) = EmptyString ->
  exists later,
    cmds (snd (main st))
    = cmds st ++ [billing_list_command; get_project_command;
                  project_list_command] ++ later.
Proof.
  intros Hfind Hb Hp.
  assert (E : current_project (before_query st d b) = EmptyString) by exact Hp.
  rewrite (main_found st _ _ Hfind Hb). cbn zeta. rewrite E. cbn [Py.not_str].
  destruct (select_project_frame (before_selection st d b)) as [_ Hc5].
  assert (Hc4 : cmds (before_selection st d b)
                = cmds st ++ [billing_list_command; get_project_command])
    by states.
  rewrite Hc4 in Hc5.
  destruct (select_project _) as [[selected|e] st5]; cbn [snd] in *.
  2:{ exists []. rewrite Hc5, <- app_assoc. reflexivity. }
  destruct (Py.not_opt selected).
  { exists []. cbn [snd logged cmds]. rewrite Hc5, <- app_assoc. reflexivity. }
  match goal with |- context [run_gcloud_command ?c true ?s] =>
    destruct (run_frame c true s) as [_ Hc7];
    destruct (run_gcloud_command c true s) as [[x|e] st7] end;
    cbn [snd logged cmds] in *.
  - match goal with |- context [finish ?d ?b ?p ?s] =>
      destruct (finish_frame d b p s) as [E'|E']; rewrite E' end;
      cbn [after_command cmds]; rewrite Hc7, Hc5, <- !app_assoc;
      cbn [app]; eexists; reflexivity.
  - rewrite Hc7, Hc5, <- !app_assoc. cbn [app]. eexists; reflexivity.
Qed.

(** ** The set-project command *)


(** ** The selection loop *)

Lemma valid_choice_dec n line : {valid_choice n line} + {~ valid_choice n line}.
Proof.
  unfold valid_choice. destruct (Py.int line) as [k|].
  - destruct (Z_le_dec 1 k) as [H1|H1];
      [destruct (Z_le_dec k (Z.of_nat n)) as [H2|H2]|].
    + left. exists k. split; [reflexivity | lia].
    + right. intros (k' & [= <-] & H). lia.
    + right. intros (k' & [= <-] & H). lia.
  - right. intros (k' & H & _). discriminate.
Qed.

Lemma first_valid_choice n lines :
  Forall (fun l => ~ valid_choice n l) lines
  \/ exists bad line rest,
       lines = bad ++ line :: rest
       /\ Forall (fun l => ~ valid_choice n l) bad
       /\ valid_choice n line.
Proof.
  induction lines as [|l lines IH]; [now left|].
  destruct (valid_choice_dec n l) as [Hl|Hl].
  - right. exists [], l, lines. now repeat split.
  - destruct IH as [IH|(bad & line & rest & -> & Hbad & Hline)].
    + left. now constructor.
    + right. exists (l :: bad), line, rest. repeat split; auto.
Qed.

Lemma selection_loop_invalid projects line rest log :
  ~ valid_choice (List.length projects) line ->
  selection_loop projects (line :: rest) log
  = selection_loop projects rest
      (log ++ [Prompt (selection_prompt projects); diagnostic line]).
Proof.
  intros Hbad. cbn [selection_loop]. unfold diagnostic.
  destruct (Py.int line) as [k|] eqn:Hint.
  - destruct ((0 <=? k - 1)%Z && (k - 1 <? Z.of_nat (List.length projects))%Z)
      eqn:Hrange.
    + exfalso. apply Hbad. exists k. split; [exact Hint|].
      apply andb_prop in Hrange as [H1 H2].
      apply Z.leb_le in H1. apply Z.ltb_lt in H2. lia.
    + now rewrite <- app_assoc.
  - now rewrite <- app_assoc.
Qed.

Lemma selection_loop_valid projects line rest log k :
  Forall (fun r => List.length r = 2%nat) projects ->
  Py.int line = Some k -> (1 <= k <= Z.of_nat (List.length projects))%Z ->
  exists project_id name,
    nth_error projects (Z.to_nat (k - 1)) = Some [project_id; name]
    /\ selection_loop projects (line :: rest) log
       = (Return project_id,
          (rest, log ++ [Prompt (selection_prompt projects)])).
Proof.
  intros Hrows Hint Hk. cbn [selection_loop]. rewrite Hint.
  replace ((0 <=? k - 1)%Z && (k - 1 <? Z.of_nat (List.length projects))%Z)
    with true
    by (symmetry; apply andb_true_intro; split;
        [apply Z.leb_le | apply Z.ltb_lt]; lia).
  destruct (nth_error projects (Z.to_nat (k - 1))) as [r|] eqn:Hnth.
  - rewrite Forall_forall in Hrows.
    specialize (Hrows r (nth_error_In _ _ Hnth)).
    destruct r as [|project_id [|name [|]]]; try discriminate.
    exists project_id, name. split; reflexivity.
  - apply nth_error_None in Hnth. lia.
Qed.

Lemma selection_loop_first_valid projects log bad line rest k :
  Forall (fun r => List.length r = 2%nat) projects ->
  Forall (fun l => ~ valid_choice (List.length projects) l) bad ->
  Py.int line = Some k ->
  (1 <= k <= Z.of_nat (List.length projects))%Z ->
  exists project_id name,
    nth_error projects (Z.to_nat (k - 1)) = Some [project_id; name]
    /\ selection_loop projects (bad ++ line :: rest) log
       = (Return project_id,
          (rest, log ++ reprompts projects bad
                     ++ [Prompt (selection_prompt projects)])).
Proof.
  intros Hrows Hbad Hint Hk. revert log.
  induction Hbad as [|l bad Hl Hbad IH]; intros log.
  - cbn [app reprompts flat_map].
    apply (selection_loop_valid projects line rest log k Hrows Hint Hk).
  - destruct (IH (log ++ [Prompt (selection_prompt projects); diagnostic l]))
      as (project_id & name & Hnth & Hrun).
    exists project_id, name. split; [exact Hnth|].
    cbn [app]. rewrite (selection_loop_invalid projects l _ log Hl), Hrun.
    cbn [reprompts flat_map app]. now rewrite <- !app_assoc.
Qed.

Lemma selection_loop_none_valid projects log bad :
  Forall (fun l => ~ valid_choice (List.length projects) l) bad ->
  selection_loop projects bad log
  = (Raise EOFError,
     ([], log ++ reprompts projects bad
              ++ [Prompt (selection_prompt projects)])).
Proof.
  intros Hbad. revert log.
  induction Hbad as [|l bad Hl Hbad IH]; intros log; [reflexivity|].
  rewrite (selection_loop_invalid projects l _ log Hl), IH.
  cbn [reprompts flat_map app]. now rewrite <- !app_assoc.
Qed.

(** ** The billing account finder *)

(** *** A field longer than the reader accepts *)

Lemma append_nil_r (s : string) : (s ++ EmptyString)%string = s.
Proof. induction s as [|c s IH]; simpl; congruence. Qed.

Lemma append_assoc (a b c : string) :
  ((a ++ b) ++ c)%string = (a ++ b ++ c)%string.
Proof. induction a as [|x a IH]; simpl; congruence. Qed.

Lemma replicate_app n m c :
  replicate (n + m) c = (replicate n c ++ replicate m c)%string.
Proof. induction n as [|n IH]; simpl; congruence. Qed.

Lemma free_of_app c a b :
  free_of c (a ++ b) = free_of c a && free_of c b.
Proof.
  induction a as [|x a IH]; simpl; [reflexivity|].
  now rewrite IH, andb_assoc.
Qed.

Lemma free_of_replicate c d n :
  Ascii.eqb c d = false -> free_of c (replicate n d) = true.
Proof. intros H. induction n as [|n IH]; simpl; [|rewrite H, IH]; reflexivity. Qed.

Lemma lstrip_not_space c s :
  Py.isspace c = false -> Py.lstrip (String c s) = String c s.
Proof. intros H. simpl. now rewrite H. Qed.

Lemma rstrip_app s t :
  Py.rstrip t = t -> t <> EmptyString ->
  Py.rstrip (s ++ t) = (s ++ t)%string.
Proof.
  intros Ht Hne. induction s as [|c s IH]; [exact Ht|].
  cbn [append Py.rstrip]. rewrite IH.
  destruct (s ++ t)%string eqn:E; [|reflexivity].
  destruct s; [contradiction | discriminate].
Qed.

Lemma rstrip_replicate n : Py.rstrip (replicate n "a") = replicate n "a".
Proof.
  induction n as [|n IH]; [reflexivity|].
  cbn [replicate Py.rstrip]. rewrite IH. now destruct (replicate n "a").
Qed.

Lemma readlines_line l t :
  free_of "010" l = true ->
  Py.readlines (l ++ LF ++ t) = (l ++ LF)%string :: Py.readlines t.
Proof.
  intros H. induction l as [|c l IH]; [reflexivity|].
  cbn [free_of] in H. apply andb_prop in H as [Hc Hl].
  change (String c l ++ LF ++ t)%string with (String c (l ++ LF ++ t)).
  cbn [Py.readlines]. rewrite Ascii.eqb_sym.
  apply negb_true_iff in Hc. rewrite Hc.
  now rewrite (IH Hl).
Qed.

Lemma readlines_replicate n :
  Py.readlines (replicate (S n) "a") = [replicate (S n) "a"].
Proof.
  induction n as [|n IH]; [reflexivity|].
  change (replicate (S (S n)) "a") with (String "a" (replicate (S n) "a")).
  remember (replicate (S n) "a") as t. simpl. now rewrite IH.
Qed.

(** An ordinary character is appended to the field under construction as
    long as the field is shorter than the limit, and refused after that. *)
Lemma parse_process_char_in_field fs f len :
  (len < Csv.field_limit)%N ->
  Csv.parse_process_char (Csv.mkReader Csv.IN_FIELD fs f len) (Some "a"%char)
  = Some (Csv.mkReader Csv.IN_FIELD fs (f ++ "a") (N.succ len)).
Proof.
  intros H. unfold Csv.parse_process_char, Csv.parse_add_char. cbn.
  now apply N.leb_gt in H as ->.
Qed.

Lemma parse_process_char_overflow fs f len :
  (Csv.field_limit <= len)%N ->
  Csv.parse_process_char (Csv.mkReader Csv.IN_FIELD fs f len) (Some "a"%char)
  = None.
Proof.
  intros H. unfold Csv.parse_process_char, Csv.parse_add_char. cbn.
  now apply N.leb_le in H as ->.
Qed.

Lemma parse_line_in_field n fs f len t :
  (len + N.of_nat n <= Csv.field_limit)%N ->
  Csv.parse_line (Csv.mkReader Csv.IN_FIELD fs f len) (replicate n "a" ++ t)
  = Csv.parse_line
      (Csv.mkReader Csv.IN_FIELD fs (f ++ replicate n "a") (len + N.of_nat n))
      t.
Proof.
  revert f len. induction n as [|n IH]; intros f len H.
  - cbn [replicate append Nat.add N.of_nat]. now rewrite append_nil_r, N.add_0_r.
  - change (replicate (S n) "a") with (String "a" (replicate n "a")).
    change (String "a" (replicate n "a") ++ t)%string
      with (String "a" (replicate n "a" ++ t)).
    cbn [Csv.parse_line].
    rewrite parse_process_char_in_field by lia.
    rewrite IH by lia. rewrite append_assoc.
    replace (N.succ len + N.of_nat n)%N with (len + N.of_nat (S n))%N by lia.
    reflexivity.
Qed.

(** A line of one unquoted field of [field_limit + 1] characters makes the
    reader raise "field larger than field limit". *)
Lemma parse_line_too_long m :
  N.of_nat m = (Csv.field_limit - 1)%N ->
  Csv.parse_line Csv.parse_reset (replicate (S (m + 1)) "a") = None.
Proof.
  intros Hm. change (S (m + 1)) with (S m + 1)%nat. rewrite replicate_app.
  change (replicate (S m) "a" ++ replicate 1 "a")%string
    with (String "a" (replicate m "a" ++ "a")).
  cbn [Csv.parse_line].
  change (Csv.parse_process_char Csv.parse_reset (Some "a"%char))
    with (Some (Csv.mkReader Csv.IN_FIELD [] "a" 1)).
  cbv iota beta.
  rewrite parse_line_in_field by (unfold Csv.field_limit in *; lia).
  cbn [Csv.parse_line].
  rewrite parse_process_char_overflow by (unfold Csv.field_limit in *; lia).
  reflexivity.
Qed.

Lemma oversized_field_eq :
  oversized_field = replicate (S (N.to_nat (Csv.field_limit - 1) + 1)) "a".
Proof.
  assert (E : N.to_nat (Csv.field_limit + 1)
              = S (N.to_nat (Csv.field_limit - 1) + 1))
    by (unfold Csv.field_limit; lia).
  unfold oversized_field. rewrite E. reflexivity.
Qed.

Lemma strip_oversized_listing : Py.strip oversized_listing = oversized_listing.
Proof.
  unfold Py.strip, oversized_listing.
  change (header_row ++ LF ++ oversized_field)%string
    with (String "d" ("isplay_name,name,open" ++ LF ++ oversized_field)).
  rewrite lstrip_not_space by reflexivity.
  change (String "d" ("isplay_name,name,open" ++ LF ++ oversized_field))
    with ((header_row ++ LF) ++ oversized_field)%string.
  apply rstrip_app.
  - rewrite oversized_field_eq. apply rstrip_replicate.
  - rewrite oversized_field_eq. discriminate.
Qed.

(** The reader yields the header, then raises on the data line. *)
Lemma reader_oversized_listing :
  Csv.reader oversized_listing
  = Csv.Yields ["display_name"; "name"; "open"] Csv.Raises.
Proof.
  unfold Csv.reader, oversized_listing.
  rewrite readlines_line by reflexivity.
  rewrite oversized_field_eq, readlines_replicate.
  cbn [Csv.iternext].
  change (Csv.parse_line Csv.parse_reset (header_row ++ LF))
    with (Some (Csv.mkReader Csv.START_RECORD
                  ["display_name"; "name"; "open"] EmptyString 0)).
  cbn [Csv.state Csv.ParserState_eqb Csv.fields].
  rewrite parse_line_too_long; [reflexivity|].
  apply N2Nat.id.
Qed.

(** The listing holds no carriage return: it is a text that the runner can
    hand to the script. *)
Lemma oversized_listing_free_of_carriage_return :
  free_of "013" oversized_listing = true.
Proof.
  unfold oversized_listing, oversized_field.
  rewrite !free_of_app, free_of_replicate by reflexivity. reflexivity.
Qed.

(** The listing command succeeds and prints a header and one data line whose
    single field is longer than the field limit of the CSV reader.  The
    reader yields the header and then raises; nothing in the script catches
    the error, so the finder raises too, although no data row matches:
    [finder_claim] does not hold of every listing. *)
Lemma finder_claim_fails :
  ~ finder_claim (initial (answering oversized_listing) []).
Proof.
  intros H. destruct (H eq_refl) as [_ H2].
  assert (L : listing_output (initial (answering oversized_listing) [])
              = oversized_listing) by apply strip_oversized_listing.
  assert (E : result find_active_billing_account
                (initial (answering oversized_listing) [])
              = Raise CsvError).
  { rewrite result_find_active_billing_account by reflexivity.
    rewrite L. unfold after_header. now rewrite reader_oversized_listing. }
  rewrite H2 in E; [discriminate|].
  rewrite L, reader_oversized_listing. intros r [].
Qed.

(** C1, amended.  When the listing command succeeds, the finder looks at the
    rows that the CSV reader yields after the header, in order.  It returns
    the name and the identifier of the first row that has exactly three
    fields, the third being ["True"] and the first containing
    ["Trial Billing Account"].  When no yielded data row is such a row (in
    particular for an empty or header-only output) it returns [(None, None)]
    if the reader reached the end of the output, and lets the reader's error
    through if the reader failed. *)
Theorem finder_first_match (st : State) :
  returncode (world st (cmds st) billing_list_command) = 0%Z ->
  let data := tl (yielded (Csv.reader (listing_output st))) in
  (forall pre name id post,
      data = pre ++ [name; id; "True"] :: post ->
      substring_of "Trial Billing Account" name ->
      (forall r, In r pre -> ~ trial_row r) ->
      result find_active_billing_account st = Return (Some name, Some id))
  /\ ((forall r, In r data -> ~ trial_row r) ->
      result find_active_billing_account st =
      if raises (Csv.reader (listing_output st))
      then Raise CsvError else Return (None, None)).
Proof.
  intros Hrc data.
  rewrite (result_find_active_billing_account st Hrc), first_trial_account_eq.
  rewrite yielded_after_header, raises_after_header. fold data. split.
  - intros pre name id post Hdata Hname Hpre. rewrite Hdata.
    rewrite (find_first is_trial_account pre [name; id; "True"] post).
    + reflexivity.
    + apply is_trial_account_iff. now exists name, id.
    + intros y Hy. apply not_trial_row. now apply Hpre.
  - intros Hnone. rewrite find_none; [reflexivity|].
    intros y Hy. apply not_trial_row. now apply Hnone.
Qed.

Lemma finder_first_match_witness :
  result find_active_billing_account (initial (answering example_listing) [])
  = Return (Some "My Trial Billing Account", Some "billingAccounts/ABC123").
Proof.
  apply (proj1 (finder_first_match
                  (initial (answering example_listing) []) eq_refl)
           [["Closed Trial Billing Account"; "billingAccounts/OLD000"; "False"];
            ["broken row"]]
           "My Trial Billing Account" "billingAccounts/ABC123" []).
  - reflexivity.
  - exists "My ", EmptyString. reflexivity.
  - intros r [<- | [<- | []]] (name & id & E & _); discriminate.
Defined.

(** C7.  The three examples of the finder: a header and one open trial
    account give that account; the same account closed gives
    [(None, None)]; a header alone gives [(None, None)]. *)
Theorem finder_examples (st : State) :
  returncode (world st (cmds st) billing_list_command) = 0%Z ->
  (listing_output st
   = (header_row ++ LF
      ++ "My Trial Billing Account,billingAccounts/ABC123,True")%string ->
   result find_active_billing_account st
   = Return (Some "My Trial Billing Account", Some "billingAccounts/ABC123"))
  /\ (listing_output st
      = (header_row ++ LF
         ++ "My Trial Billing Account,billingAccounts/ABC123,False")%string ->
      result find_active_billing_account st = Return (None, None))
  /\ (listing_output st = header_row ->
      result find_active_billing_account st = Return (None, None)).
Proof.
  intros Hrc. rewrite (result_find_active_billing_account st Hrc).
  repeat split; intros ->; reflexivity.
Qed.

Lemma finder_examples_witness :
  result find_active_billing_account (initial (answering one_account) [])
  = Return (Some "My Trial Billing Account", Some "billingAccounts/ABC123").
Proof.
  apply (proj1 (finder_examples (initial (answering one_account) []) eq_refl)).
  reflexivity.
Defined.

(** C9.  Whenever the finder returns, it returns [(None, None)] or a pair
    of two present components; in the second case the name contains
    ["Trial Billing Account"] and the pair is the first two fields of a
    data row of three fields whose third field is ["True"]. *)
Theorem finder_pair_invariant (st : State) :
  match result find_active_billing_account st with
  | Return (None, None) => True
  | Return (Some name, Some id) =>
      substring_of "Trial Billing Account" name
      /\ In [name; id; "True"] (tl (yielded (Csv.reader (listing_output st))))
  | Return _ => False
  | Raise _ => True
  end.
Proof.
  unfold result. rewrite find_active_billing_account_eq. cbn zeta.
  destruct (returncode _ =? 0)%Z; [|exact I]. cbn [fst].
  rewrite first_trial_account_eq, yielded_after_header.
  fold (listing_output st).
  destruct (List.find is_trial_account _) as [r|] eqn:E.
  - apply find_some in E as [Hin Hr].
    apply is_trial_account_iff in Hr as (name & id & -> & Hname).
    cbn. split; assumption.
  - destruct (raises _); exact I.
Qed.

(** ** The command runner *)

(** C5.  With [check] set, a command that exits with a non-zero status makes
    the runner print the command line and the captured error text on the
    diagnostic stream and end the process with status 1.  Without [check]
    the runner returns the standard output, trimmed of the white space at
    its ends, whatever the exit status. *)
Theorem run_gcloud_command_failure_policy (command : string) (st : State) :
  let process := world st (cmds st) command in
  (returncode process <> 0%Z ->
   run_gcloud_command command true st =
     (Raise (SystemExit 1),
      after_command st command
        [PrintErr ("Error running command: " ++ command);
         PrintErr ("Stderr: " ++ stderr process)])
   /\ exit_status (result (run_gcloud_command command true) st) <> 0%Z)
  /\ (exists text,
        run_gcloud_command command false st
        = (Return text, after_command st command [])
        /\ trimmed_from text (stdout process)).
Proof.
  intros process. subst process. split.
  - intros Hrc. unfold result. rewrite run_gcloud_command_eq. cbn zeta.
    apply Z.eqb_neq in Hrc. rewrite Hrc. cbn. split; [reflexivity | discriminate].
  - eexists. split; [|apply strip_spec].
    rewrite run_gcloud_command_eq. reflexivity.
Qed.

Lemma run_gcloud_command_failure_policy_witness :
  run_gcloud_command "gcloud projects list" true
    (initial (failing "partial output" "permission denied" 2) [])
  = (Raise (SystemExit 1),
     mkState (failing "partial output" "permission denied" 2)
       ["gcloud projects list"] []
       [Subprocess "gcloud projects list";
        PrintErr "Error running command: gcloud projects list";
        PrintErr "Stderr: permission denied"]).
Proof.
  apply (proj1 (run_gcloud_command_failure_policy "gcloud projects list"
                  (initial (failing "partial output" "permission denied" 2) []))).
  discriminate.
Defined.

(** ** Project selection *)

(** When standard input ends before a valid choice, [input] raises
    [EOFError], which the loop does not catch: [selection_claim] does not
    hold of every sequence of lines. *)
Lemma selection_claim_fails : ~ selection_claim two_projects ["abc"].
Proof. intros [H _]. now apply (H EOFError). Qed.

(** C2, amended.  For a list of projects, each a row of two fields, and the
    lines that standard input holds: every line that is not an integer
    between 1 and the number of projects is answered by a diagnostic and a
    new prompt; at the first line that is such an integer [k] the loop
    returns the identifier of the [k]-th project; the loop returns exactly
    when some line is such an integer; the only exception it raises is
    [EOFError], when the lines run out before such a line. *)
Theorem selection_loop_returns_valid_choice
  (projects : list row) (log : list event) :
  Forall (fun r => List.length r = 2%nat) projects ->
  (forall bad line rest k,
      Forall (fun l => ~ valid_choice (List.length projects) l) bad ->
      Py.int line = Some k ->
      (1 <= k <= Z.of_nat (List.length projects))%Z ->
      exists project_id name,
        nth_error projects (Z.to_nat (k - 1)) = Some [project_id; name]
        /\ selection_loop projects (bad ++ line :: rest) log
           = (Return project_id,
              (rest, log ++ reprompts projects bad
                         ++ [Prompt (selection_prompt projects)])))
  /\ (forall bad,
        Forall (fun l => ~ valid_choice (List.length projects) l) bad ->
        selection_loop projects bad log
        = (Raise EOFError,
           ([], log ++ reprompts projects bad
                    ++ [Prompt (selection_prompt projects)])))
  /\ (forall lines,
        (exists project_id,
            fst (selection_loop projects lines log) = Return project_id)
        <-> Exists (valid_choice (List.length projects)) lines)
  /\ (forall lines e,
        fst (selection_loop projects lines log) = Raise e ->
        e = EOFError
        /\ Forall (fun l => ~ valid_choice (List.length projects) l) lines).
Proof.
  intros Hrows.
  pose proof (fun bad line rest k =>
                selection_loop_first_valid projects log bad line rest k Hrows)
    as Hvalid.
  pose proof (selection_loop_none_valid projects log) as Hnone.
  split; [exact Hvalid|]. split; [exact Hnone|]. split.
  - intros lines. split.
    + intros [project_id Hret].
      destruct (first_valid_choice (List.length projects) lines)
        as [Hall|(bad & line & rest & -> & Hbad & Hline)].
      * rewrite (Hnone lines Hall) in Hret. discriminate.
      * apply Exists_app. right. now constructor.
    + intros Hex.
      destruct (first_valid_choice (List.length projects) lines)
        as [Hall|(bad & line & rest & -> & Hbad & (k & Hint & Hk))].
      * exfalso. apply Exists_exists in Hex as (l & Hin & Hl).
        rewrite Forall_forall in Hall. now apply (Hall l Hin).
      * destruct (Hvalid bad line rest k Hbad Hint Hk)
          as (project_id & name & _ & ->).
        now exists project_id.
  - intros lines e Hraise.
    destruct (first_valid_choice (List.length projects) lines)
      as [Hall|(bad & line & rest & -> & Hbad & (k & Hint & Hk))].
    + rewrite (Hnone lines Hall) in Hraise. now injection Hraise as <-.
    + destruct (Hvalid bad line rest k Hbad Hint Hk)
        as (project_id & name & _ & E).
      rewrite E in Hraise. discriminate.
Qed.

(** The two-project example: ["abc"] is answered once, ["1"] selects
    [proj-1]. *)
Lemma selection_loop_returns_valid_choice_witness :
  exists project_id name,
    nth_error two_projects (Z.to_nat (1 - 1)) = Some [project_id; name]
    /\ selection_loop two_projects (["abc"] ++ "1" :: []) []
       = (Return project_id,
          ([], [] ++ reprompts two_projects ["abc"]
                  ++ [Prompt (selection_prompt two_projects)])).
Proof.
  apply (proj1 (selection_loop_returns_valid_choice two_projects []
                  ltac:(repeat constructor)) ["abc"] "1" [] 1%Z).
  - constructor; [|constructor]. intros (k & Hk & _). discriminate.
  - reflexivity.
  - cbn. lia.
Defined.

Example selection_second_project :
  selection_loop two_projects ["2"] []
  = (Return "proj-2", ([], [Prompt "Enter a number (1-2): "])).
Proof. reflexivity. Qed.

(** C3, where the script departs from it.  The finder passes over a data
    row whose field count is not three ([first_trial_account_skips]), but
    [select_project] prints its menu by unpacking every row into two names:
    a project listing that parses and holds a data row with another number
    of fields makes [select_project] raise [ValueError], which nothing
    catches. *)
Theorem select_project_malformed_row (st : State) (projects : list row) :
  returncode (world st (cmds st) project_list_command) = 0%Z ->
  Csv.to_list (after_header (projects_output st)) = Some projects ->
  Exists (fun r => List.length r <> 2%nat) projects ->
  result select_project st = Raise ValueError.
Proof.
  intros Hrc Hrows Hbad. unfold result. rewrite select_project_eq. cbn zeta.
  rewrite Hrc, Hrows. cbn [Z.eqb].
  destruct projects as [|r projects]; [inversion Hbad|].
  unfold offer, bind at 1, print. rewrite emit_eq. unfold bind at 1.
  destruct (print_menu_malformed (r :: projects) 0
              (logged
                 (after_command
                    (logged st [Print "Fetching available projects..."])
                    project_list_command [])
                 [Print "Please select a project:"]) Hbad) as [st' ->].
  reflexivity.
Qed.

Lemma select_project_malformed_row_witness :
  result select_project (initial (answering malformed_projects_listing) [])
  = Raise ValueError.
Proof.
  apply (select_project_malformed_row
           (initial (answering malformed_projects_listing) [])
           [["proj-1"; "Name One"]; ["proj-2"]]).
  - reflexivity.
  - reflexivity.
  - apply Exists_cons_tl. apply Exists_cons_hd. discriminate.
Defined.

(** The whole run on that listing: the menu stops at the short row and the
    process ends on the uncaught exception, with status 1. *)
Example main_malformed_project_row :
  observe (main (initial (gcloud one_account EmptyString
                            malformed_projects_listing) ["1"]))
  = (Raise ValueError,
     [billing_list_command; get_project_command; project_list_command],
     ["1"],
     [Print "Finding an active billing account...";
      Subprocess billing_list_command;
      Print "Found billing account: My Trial Billing Account (billingAccounts/ABC123)";
      Print "Finding current project...";
      Subprocess get_project_command;
      Print "No active gcloud project found. Let's select one.";
      Print "Fetching available projects...";
      Subprocess project_list_command;
      Print "Please select a project:";
      Print "  1: proj-1 (Name One)"])
  /\ exit_status (result main (initial (gcloud one_account EmptyString
                                  malformed_projects_listing) ["1"])) = 1%Z.
Proof. split; reflexivity. Qed.

(** ** The orchestrator *)

(** A matching row whose identifier field is empty is returned by the
    finder and refused by [main], whose test [not billing_id] is also true
    of the empty string: [linking_claim] does not hold of every run. *)
Lemma linking_claim_fails :
  ~ linking_claim
      (initial (gcloud (header_row ++ LF ++ "My Trial Billing Account,,True")
                       "my-project" EmptyString) []).
Proof.
  intros H.
  specialize (H "My Trial Billing Account" EmptyString "my-project"
                eq_refl eq_refl ltac:(discriminate)).
  vm_compute in H. discriminate.
Qed.

(** C4, amended.  If the finder returns an account whose identifier is not
    empty and the current-project query returns a non-empty identifier,
    [main] runs three commands: the two queries and then, once, the linking
    command with that project and that account.  If the linking command
    succeeds the run ends with status 0 after the success message; if it
    fails the run ends with status 1 and does nothing after the two lines
    that report the failure. *)
Theorem main_links_found_account (st : State) (d b p : string) :
  result find_active_billing_account st = Return (Some d, Some b) ->
  b <> EmptyString ->
  current_project (after_command st billing_list_command []) = p ->
  p <> EmptyString ->
  let link := link_command p b in
  let process :=
    world st (cmds st ++ [billing_list_command; get_project_command]) link in
  let steps :=
    [Print "Finding an active billing account...";
     Subprocess billing_list_command;
     Print ("Found billing account: " ++ d ++ " (" ++ b ++ ")");
     Print "Finding current project...";
     Subprocess get_project_command;
     Print ("Using project: " ++ p);
     Print ("Linking project " ++ p ++ " to billing account " ++ d
            ++ " (" ++ b ++ ")...");
     Subprocess link] in
  cmds (snd (main st))
  = cmds st ++ [billing_list_command; get_project_command; link]
  /\ (returncode process = 0%Z ->
      result main st = Return tt
      /\ exit_status (result main st) = 0%Z
      /\ log (snd (main st))
         = log st ++ steps ++ [Print "Successfully linked project."])
  /\ (returncode process <> 0%Z ->
      result main st = Raise (SystemExit 1)
      /\ exit_status (result main st) = 1%Z
      /\ log (snd (main st))
         = log st ++ steps
           ++ [PrintErr ("Error running command: " ++ link);
               PrintErr ("Stderr: " ++ stderr process)]).
Proof.
  intros Hfind Hb Hp Hp' link process steps. subst link process steps.
  assert (Hb' : Py.not_opt (Some b) = false) by (now destruct b).
  assert (Hns : Py.not_str p = false) by (now destruct p).
  assert (E : current_project (before_query st (Some d) (Some b)) = p)
    by exact Hp.
  unfold result. rewrite (main_found st _ _ Hfind Hb'). cbn zeta.
  rewrite E, Hns, finish_eq, Hns. cbn zeta.
  assert (Ecmds : cmds (after_command (before_query st (Some d) (Some b))
                          get_project_command [])
                  = cmds st ++ [billing_list_command; get_project_command])
    by states.
  rewrite Ecmds. cbn [world after_command before_query logged Py.format_opt].
  split; [|split].
  - destruct (returncode _ =? 0)%Z; states.
  - intros ->. repeat split; states.
  - intros Hrc. apply Z.eqb_neq in Hrc. rewrite Hrc. repeat split; states.
Qed.

(** The end-to-end example: the account [billingAccounts/ABC123] and the
    current project [my-project]. *)
Lemma main_links_found_account_witness :
  cmds (snd (main (initial (gcloud one_account "my-project" EmptyString) [])))
  = [billing_list_command; get_project_command;
     link_command "my-project" "billingAccounts/ABC123"]
  /\ exit_status
       (result main (initial (gcloud one_account "my-project" EmptyString) []))
     = 0%Z.
Proof.
  destruct (main_links_found_account
              (initial (gcloud one_account "my-project" EmptyString) [])
              "My Trial Billing Account" "billingAccounts/ABC123" "my-project"
              eq_refl ltac:(discriminate) eq_refl ltac:(discriminate))
    as (Hcmds & Hok & _).
  split; [exact Hcmds|]. now apply Hok.
Defined.





(** C10.  A current-project query answered with white space only returns
    the empty string, as an empty answer does; [main], when it has found an
    account, then goes on to list the projects; and a run in which such
    answers are replaced by empty ones is the same run: same outcome, same
    commands, same prints and prompts, same input left. *)
Theorem blank_current_project_is_unset :
  (forall st,
      all_space (stdout (world st (cmds st) get_project_command)) = true ->
      get_current_project st
      = (Return EmptyString, after_command st get_project_command []))
  /\ (forall st d b,
        result find_active_billing_account st = Return (d, b) ->
        Py.not_opt b = false ->
        all_space (stdout (world st (cmds st ++ [billing_list_command])
                                 get_project_command)) = true ->
        exists later,
          cmds (snd (main st))
          = cmds st ++ [billing_list_command; get_project_command;
                        project_list_command] ++ later)
  /\ (forall w w' lines,
        blank_as_unset w w' ->
        observe (main (initial w lines)) = observe (main (initial w' lines))).
Proof.
  split; [|split].
  - intros st H. rewrite get_current_project_eq. unfold current_project.
    now rewrite (strip_all_space _ H).
  - intros st d b Hfind Hb H.
    apply (main_reaches_selection st d b Hfind Hb).
    unfold current_project. cbn [world cmds after_command].
    now apply strip_all_space.
  - intros w w' lines H.
    destruct (respects_main (initial w lines) (initial w' lines))
      as [Ho (_ & Hc & Hi & Hl)].
    + unfold agree. cbn. auto using blank_as_unset_agree.
    + unfold observe. now rewrite Ho, Hc, Hi, Hl.
Qed.

Lemma blank_current_project_is_unset_witness :
  get_current_project (initial (answering ("  " ++ LF)) [])
  = (Return EmptyString,
     after_command (initial (answering ("  " ++ LF)) []) get_project_command []).
Proof.
  apply (proj1 blank_current_project_is_unset
           (initial (answering ("  " ++ LF)) [])).
  reflexivity.
Defined.

Example blank_current_project_run :
  cmds (snd (main (initial (gcloud one_account (" " ++ LF) two_projects_listing)
                     ["abc"; "1"])))
  = [billing_list_command; get_project_command; project_list_command;
     set_project_command "proj-1"; get_project_command;
     link_command "proj-1" "billingAccounts/ABC123"].
Proof. reflexivity. Qed.

(** ** Numbers shown and numbers typed *)

Ltac scan_one_digit :=
  cbn [NilEmpty.string_of_uint Py.scan_digits String.length Nat.of_uint_acc];
  match goal with
  | |- context [Ascii.eqb ?c "_"] => change (Ascii.eqb c "_") with false
  end;
  match goal with
  | |- context [Py.digit_value ?c] =>
      let v := eval vm_compute in (Py.digit_value c) in
      change (Py.digit_value c) with v
  end;
  cbv iota.

Lemma scan_digits_decimal (d : Decimal.uint) : forall digits value,
  Py.scan_digits false digits value (NilEmpty.string_of_uint d)
  = Some ((digits + N.of_nat (String.length (NilEmpty.string_of_uint d)))%N,
          N.of_nat (Nat.of_uint_acc d (N.to_nat value)),
          EmptyString).
Proof.
  induction d as [|d IH|d IH|d IH|d IH|d IH|d IH|d IH|d IH|d IH|d IH];
    intros digits value;
    [cbn; now rewrite N.add_0_r, N2Nat.id | ..];
    scan_one_digit; rewrite IH;
    apply (f_equal Some);
    (apply f_equal2;
     [apply f_equal2;
      [lia | apply f_equal, f_equal; rewrite Nat.tail_mul_spec; lia]
     | reflexivity]).
Qed.

Lemma int_digit_start (c : ascii) (t : string) :
  Py.digit_value c <> None ->
  Py.int (String c t)
  = match Py.scan_digits false 0 0 (String c t) with
    | None => None
    | Some (digits, value, rest) =>
        if (Py.max_str_digits <? digits)%N then None
        else if (digits =? 0)%N then None
        else match Py.skip_spaces rest with
             | EmptyString => Some (Z.of_N value)
             | String _ _ => None
             end
    end.
Proof.
  destruct c as [[] [] [] [] [] [] [] []]; intros H;
    try (now destruct H); reflexivity.
Qed.

Lemma int_decimal (d : Decimal.uint) :
  (N.of_nat (String.length (NilZero.string_of_uint d)) <= Py.max_str_digits)%N ->
  Py.int (NilZero.string_of_uint d) = Some (Z.of_nat (Nat.of_uint d)).
Proof.
  intros Hlen. destruct d as [|d|d|d|d|d|d|d|d|d|d]; [reflexivity | ..];
    cbn [NilZero.string_of_uint] in *;
    match goal with
    | |- Py.int (NilEmpty.string_of_uint ?u) = _ =>
        set (s := NilEmpty.string_of_uint u) in *;
        assert (Hs : s = NilEmpty.string_of_uint u) by reflexivity;
        cbn [NilEmpty.string_of_uint] in Hs; rewrite Hs;
        rewrite int_digit_start by discriminate;
        rewrite <- Hs; unfold s;
        rewrite scan_digits_decimal;
        fold s
    end;
    (replace (Py.max_str_digits <? 0 + N.of_nat (String.length s))%N
       with false by (symmetry; apply N.ltb_ge; lia));
    (replace (0 + N.of_nat (String.length s) =? 0)%N with false
       by (symmetry; apply N.eqb_neq; rewrite Hs; cbn [String.length]; lia));
    cbn [Py.skip_spaces]; unfold Nat.of_uint;
    now rewrite nat_N_Z.
Qed.

(** X2.  [int] reads back the decimal text that an f-string writes for a
    non-negative integer, as long as the text has at most 4300 digits. *)
Theorem int_str_of_nat (n : nat) :
  (N.of_nat (String.length (Py.str_of_nat n)) <= Py.max_str_digits)%N ->
  Py.int (Py.str_of_nat n) = Some (Z.of_nat n).
Proof.
  intros H. unfold Py.str_of_nat in *.
  now rewrite (int_decimal _ H), Unsigned.of_to.
Qed.

Lemma int_str_of_nat_witness : Py.int (Py.str_of_nat 12) = Some 12%Z.
Proof. apply (int_str_of_nat 12). vm_compute. discriminate. Defined.

Lemma print_menu_eq projects : forall i st,
  Forall (fun r => List.length r = 2%nat) projects ->
  print_menu i projects st = (Return tt, logged st (menu_lines i projects)).
Proof.
  induction projects as [|r projects IH]; intros i st H.
  - unfold logged. cbn. rewrite app_nil_r. now destruct st.
  - inversion H as [|? ? Hr Hrest]; subst.
    destruct r as [|project_id [|name [|]]]; try discriminate.
    cbn [print_menu menu_lines nth]. unfold bind, print. rewrite emit_eq.
    rewrite (IH _ _ Hrest), logged_logged. reflexivity.
Qed.




Lemma while_true_eq projects st :
  while_true projects st
  = (fst (selection_loop projects (stdin st) (log st)),
     mkState (world st) (cmds st)
       (fst (snd (selection_loop projects (stdin st) (log st))))
       (snd (snd (selection_loop projects (stdin st) (log st))))).
Proof.
  unfold while_true.
  now destruct (selection_loop projects (stdin st) (log st)) as [o [l e]].
Qed.

Lemma offer_eq projects st :
  Forall (fun r => List.length r = 2%nat) projects ->
  offer projects st
  = let st' := logged st (Print "Please select a project:"
                          :: menu_lines 0 projects) in
    let run := selection_loop projects (stdin st) (log st') in
    (match fst run with
     | Return project_id => Return (Some project_id)
     | Raise e => Raise e
     end,
     mkState (world st) (cmds st) (fst (snd run)) (snd (snd run))).
Proof.
  intros Hrows. unfold offer, bind at 1, print. rewrite emit_eq.
  unfold bind at 1. rewrite (print_menu_eq projects 0 _ Hrows), logged_logged.
  unfold bind. rewrite while_true_eq. cbn [app stdin logged world cmds log].
  cbn zeta.
  now destruct (fst (selection_loop projects (stdin st) _)).
Qed.

(** X4.  When the project listing succeeds and parses into two-field data
    rows, and standard input holds a valid choice [k] after lines that are
    not, [select_project] returns the identifier of the [k]-th project.  It
    has run the listing command only, has printed the heading, one menu
    line per project and one diagnostic per rejected line, and has left the
    lines after the chosen one unread. *)
Theorem select_project_selects (st : State) (projects : list row)
  (bad : list string) (line : string) (rest : list string) (k : Z) :
  returncode (world st (cmds st) project_list_command) = 0%Z ->
  Csv.to_list (after_header (projects_output st)) = Some projects ->
  Forall (fun r => List.length r = 2%nat) projects ->
  stdin st = bad ++ line :: rest ->
  Forall (fun l => ~ valid_choice (List.length projects) l) bad ->
  Py.int line = Some k ->
  (1 <= k <= Z.of_nat (List.length projects))%Z ->
  exists project_id name,
    nth_error projects (Z.to_nat (k - 1)) = Some [project_id; name]
    /\ select_project st
       = (Return (Some project_id),
          mkState (world st) (cmds st ++ [project_list_command]) rest
            (log st
             ++ [Print "Fetching available projects...";
                 Subprocess project_list_command;
                 Print "Please select a project:"]
             ++ menu_lines 0 projects
             ++ reprompts projects bad
             ++ [Prompt (selection_prompt projects)])).
Proof.
  intros Hrc Hlist Hrows Hin Hbad Hint Hk.
  rewrite select_project_eq. cbn zeta. rewrite Hrc, Hlist. cbn [Z.eqb].
  assert (Hne : projects <> []) by (intros ->; cbn in Hk; lia).
  destruct projects as [|r projects]; [contradiction|].
  rewrite (offer_eq _ _ Hrows). cbn zeta.
  cbn [stdin after_command logged world cmds log]. rewrite Hin.
  match goal with |- context [selection_loop ?p _ ?l] =>
    destruct (selection_loop_first_valid p l bad line rest k Hrows Hbad Hint Hk)
      as (project_id & name & Hnth & ->) end.
  exists project_id, name. split; [exact Hnth|]. cbn [fst snd].
  rewrite <- !app_assoc. reflexivity.
Qed.

Lemma select_project_selects_witness :
  exists project_id name,
    nth_error two_projects (Z.to_nat (2 - 1)) = Some [project_id; name]
    /\ select_project
         (initial (answering two_projects_listing) ["abc"; "2"; "later"])
       = (Return (Some project_id),
          mkState (answering two_projects_listing)
            ([] ++ [project_list_command]) ["later"]
            ([]
             ++ [Print "Fetching available projects...";
                 Subprocess project_list_command;
                 Print "Please select a project:"]
             ++ menu_lines 0 two_projects
             ++ reprompts two_projects ["abc"]
             ++ [Prompt (selection_prompt two_projects)])).
Proof.
  apply (select_project_selects
           (initial (answering two_projects_listing) ["abc"; "2"; "later"])
           two_projects ["abc"] "2" ["later"] 2%Z).
  - reflexivity.
  - reflexivity.
  - repeat constructor.
  - reflexivity.
  - constructor; [|constructor]. intros (k & Hk & _). discriminate.
  - reflexivity.
  - cbn. lia.
Defined.

Lemma two_fields_dec (r : row) :
  {List.length r = 2%nat} + {List.length r <> 2%nat}.
Proof. apply Nat.eq_dec. Qed.

(** X5.  Every outcome of [select_project], with its cause.  It returns
    [None] only for a listing without data rows, and an identifier only if
    that identifier heads a data row of the listing and some input line is
    a valid choice.  It exits, with status 1, only if the listing command
    failed.  It raises [CsvError] only if the listing does not parse,
    [ValueError] only if some data row has not two fields, [EOFError] only
    if no input line is a valid choice; the indexing of line 84 never
    raises [IndexError]. *)
Theorem select_project_outcomes (st : State) :
  let process := world st (cmds st) project_list_command in
  let listing := Csv.to_list (after_header (projects_output st)) in
  match result select_project st with
  | Return None => returncode process = 0%Z /\ listing = Some []
  | Return (Some project_id) =>
      returncode process = 0%Z
      /\ exists projects name,
           listing = Some projects
           /\ In [project_id; name] projects
           /\ Exists (valid_choice (List.length projects)) (stdin st)
  | Raise (SystemExit code) => code = 1%Z /\ returncode process <> 0%Z
  | Raise CsvError => returncode process = 0%Z /\ listing = None
  | Raise ValueError =>
      returncode process = 0%Z
      /\ exists projects,
           listing = Some projects
           /\ Exists (fun r => List.length r <> 2%nat) projects
  | Raise EOFError =>
      returncode process = 0%Z
      /\ exists projects,
           listing = Some projects /\ projects <> []
           /\ Forall (fun r => List.length r = 2%nat) projects
           /\ Forall (fun l => ~ valid_choice (List.length projects) l)
                     (stdin st)
  | Raise IndexError => False
  end.
Proof.
  intros process listing. subst process listing. unfold result.
  rewrite select_project_eq. cbn zeta.
  destruct (returncode _ =? 0)%Z eqn:Hrc.
  2:{ apply Z.eqb_neq in Hrc. now split. }
  apply Z.eqb_eq in Hrc.
  destruct (Csv.to_list _) as [[|r projects]|] eqn:Hlist; try now split.
  set (st2 := after_command _ _ _).
  destruct (Forall_Exists_dec _ two_fields_dec (r :: projects)) as [Hrows|Hbad].
  - rewrite (offer_eq _ _ Hrows). cbn zeta. cbn [fst].
    set (l := log _).
    assert (Hin : stdin st2 = stdin st) by reflexivity. rewrite Hin.
    destruct (first_valid_choice (List.length (r :: projects)) (stdin st))
      as [Hall|(bad & line & rest & E & Hbad & (k & Hint & Hk))].
    + rewrite (selection_loop_none_valid _ l _ Hall). cbn [fst].
      split; [exact Hrc|]. exists (r :: projects). now repeat split.
    + rewrite E.
      destruct (selection_loop_first_valid _ l bad line rest k Hrows Hbad Hint Hk)
        as (project_id & name & Hnth & ->).
      cbn [fst]. split; [exact Hrc|]. exists (r :: projects), name.
      split; [reflexivity|]. split; [exact (nth_error_In _ _ Hnth)|].
      apply Exists_app. right. constructor. now exists k.
  - unfold offer, bind at 1, print. rewrite emit_eq. unfold bind at 1.
    destruct (print_menu_malformed (r :: projects) 0
                (logged st2 [Print "Please select a project:"]) Hbad)
      as [st' ->].
    cbn [fst]. split; [exact Hrc|]. now exists (r :: projects).
Qed.

(** ** The runner when it returns *)

(** X1.  A command that exits with status 0 makes the runner return the
    trimmed output whatever [check] is.  Whenever the runner returns, it
    has only run the command (nothing is printed, no input is read), the
    text is empty exactly when the output holds white space only, and with
    [check] set the command has exited with status 0. *)
Theorem run_gcloud_command_returns (command : string) (check : bool)
  (st : State) :
  let process := world st (cmds st) command in
  (returncode process = 0%Z ->
   run_gcloud_command command check st
   = (Return (Py.strip (stdout process)), after_command st command []))
  /\ (forall text st',
        run_gcloud_command command check st = (Return text, st') ->
        st' = after_command st command []
        /\ trimmed_from text (stdout process)
        /\ (text = EmptyString <-> all_space (stdout process) = true)
        /\ (check = true -> returncode process = 0%Z)).
Proof.
  intros process. subst process. rewrite run_gcloud_command_eq. cbn zeta. split.
  - intros ->. now rewrite andb_false_r.
  - intros text st'.
    destruct (check && _) eqn:Hc; [discriminate|].
    intros [= <- <-]. split; [reflexivity|]. split; [apply strip_spec|]. split.
    + split; [apply strip_empty_all_space | apply strip_all_space].
    + intros ->. cbn in Hc. apply negb_false_iff in Hc. now apply Z.eqb_eq.
Qed.

Lemma run_gcloud_command_returns_witness :
  run_gcloud_command get_project_command true
    (initial (answering (" my-project" ++ LF)) [])
  = (Return "my-project",
     after_command (initial (answering (" my-project" ++ LF)) [])
                   get_project_command []).
Proof.
  apply (proj1 (run_gcloud_command_returns get_project_command true
                  (initial (answering (" my-project" ++ LF)) []))).
  reflexivity.
Defined.

(** ** The paths of [main] *)

(** X6.  If the billing listing command fails, [main] ends with status 1
    after reporting the command and its error text; it has run no other
    command and read no input. *)
Theorem main_billing_listing_fails (st : State) :
  let process := world st (cmds st) billing_list_command in
  returncode process <> 0%Z ->
  main st
  = (Raise (SystemExit 1),
     mkState (world st) (cmds st ++ [billing_list_command]) (stdin st)
       (log st
        ++ [Print "Finding an active billing account...";
            Subprocess billing_list_command;
            PrintErr ("Error running command: " ++ billing_list_command);
            PrintErr ("Stderr: " ++ stderr process)])).
Proof.
  intros process Hrc. subst process. rewrite main_eq.
  rewrite find_active_billing_account_eq. cbn zeta.
  cbn [world cmds logged]. apply Z.eqb_neq in Hrc. rewrite Hrc.
  f_equal. states.
Qed.

Lemma main_billing_listing_fails_witness :
  main (initial (failing EmptyString "not logged in" 1) ["1"])
  = (Raise (SystemExit 1),
     mkState (failing EmptyString "not logged in" 1)
       ([] ++ [billing_list_command]) ["1"]
       ([]
        ++ [Print "Finding an active billing account...";
            Subprocess billing_list_command;
            PrintErr ("Error running command: " ++ billing_list_command);
            PrintErr ("Stderr: " ++ "not logged in")])).
Proof.
  apply (main_billing_listing_fails
           (initial (failing EmptyString "not logged in" 1) ["1"])).
  discriminate.
Defined.

(** X7.  If the finder returns a pair whose identifier is absent or empty,
    [main] prints that no active billing account was found and ends with
    status 1; the current project is not queried and no input is read. *)
Theorem main_no_billing_account (st : State) (d b : option string) :
  result find_active_billing_account st = Return (d, b) ->
  Py.not_opt b = true ->
  main st
  = (Raise (SystemExit 1),
     mkState (world st) (cmds st ++ [billing_list_command]) (stdin st)
       (log st
        ++ [Print "Finding an active billing account...";
            Subprocess billing_list_command;
            PrintErr "Error: No active billing account with 'Trial Billing Account' in the name found."])).
Proof.
  intros Hfind Hb. rewrite main_eq, (find_returns st _ Hfind), Hb.
  f_equal. states.
Qed.

Lemma main_no_billing_account_witness :
  main (initial (answering header_row) ["1"])
  = (Raise (SystemExit 1),
     mkState (answering header_row) ([] ++ [billing_list_command]) ["1"]
       ([]
        ++ [Print "Finding an active billing account...";
            Subprocess billing_list_command;
            PrintErr "Error: No active billing account with 'Trial Billing Account' in the name found."])).
Proof.
  apply (main_no_billing_account (initial (answering header_row) ["1"])
           None None); reflexivity.
Defined.

Section AfterSelection.

Variables (st : State) (d b : option string) (project_id : string)
          (st5 : State).

Hypothesis Hfind :
  result find_active_billing_account st = Return (d, b).
Hypothesis Hb : Py.not_opt b = false.
Hypothesis Hunset :
  current_project (after_command st billing_list_command []) = EmptyString.
Hypothesis Hselect :
  select_project (before_selection st d b) = (Return (Some project_id), st5).
Hypothesis Hid : project_id <> EmptyString.

Lemma after_selection_frame :
  world st5 = world st
  /\ cmds st5
     = cmds st ++ [billing_list_command; get_project_command;
                   project_list_command].
Proof.
  destruct (select_project_frame (before_selection st d b)) as [Hw Hc].
  rewrite Hselect in Hw, Hc. cbn [snd] in Hw, Hc. split; [exact Hw|].
  rewrite Hc. states.
Qed.

Lemma main_after_selection :
  main st
  = match run_gcloud_command (set_project_command project_id) true
            (logged st5 [Print ("Setting project '" ++ project_id
                                ++ "' as current...")])
    with
    | (Raise e, st7) => (Raise e, st7)
    | (Return _, st7) =>
        finish d b (current_project st7)
          (after_command st7 get_project_command [])
    end.
Proof.
  assert (E : current_project (before_query st d b) = EmptyString)
    by exact Hunset.
  rewrite (main_found st _ _ Hfind Hb). cbn zeta. rewrite E, Hselect.
  cbn [Py.not_str Py.not_opt Py.format_opt].
  now destruct project_id.
Qed.

(** X8.  After a project has been selected, if the command that sets it
    fails, [main] ends with status 1 after reporting that command; the
    current project is not queried again and nothing is linked. *)
Theorem main_set_project_fails :
  let history := cmds st ++ [billing_list_command; get_project_command;
                             project_list_command] in
  let process := world st history (set_project_command project_id) in
  returncode process <> 0%Z ->
  main st
  = (Raise (SystemExit 1),
     mkState (world st) (history ++ [set_project_command project_id])
       (stdin st5)
       (log st5
        ++ [Print ("Setting project '" ++ project_id ++ "' as current...");
            Subprocess (set_project_command project_id);
            PrintErr ("Error running command: "
                      ++ set_project_command project_id);
            PrintErr ("Stderr: " ++ stderr process)])).
Proof.
  intros history process Hrc. subst history process.
  destruct after_selection_frame as [Hw Hc].
  rewrite main_after_selection, run_gcloud_command_eq. cbn zeta.
  cbn [world cmds logged]. rewrite Hw, Hc.
  apply Z.eqb_neq in Hrc. rewrite Hrc. cbn [andb negb].
  f_equal. unfold after_command, logged. cbn [world cmds stdin log].
  rewrite Hw, Hc, <- !app_assoc. reflexivity.
Qed.

(** X9.  After a project has been selected and set, if the second query of
    the current project answers with white space only, [main] prints
    [Failed to set project. Exiting.] and ends with status 1 without
    linking. *)
Theorem main_project_not_confirmed :
  let history := cmds st ++ [billing_list_command; get_project_command;
                             project_list_command] in
  let set := set_project_command project_id in
  returncode (world st history set) = 0%Z ->
  all_space (stdout (world st (history ++ [set]) get_project_command)) = true ->
  main st
  = (Raise (SystemExit 1),
     mkState (world st) (history ++ [set; get_project_command]) (stdin st5)
       (log st5
        ++ [Print ("Setting project '" ++ project_id ++ "' as current...");
            Subprocess set;
            Subprocess get_project_command;
            PrintErr "Failed to set project. Exiting."])).
Proof.
  intros history set Hrc Hblank. subst history set.
  destruct after_selection_frame as [Hw Hc].
  rewrite main_after_selection, run_gcloud_command_eq. cbn zeta.
  cbn [world cmds logged]. rewrite Hw, Hc, Hrc. cbn [Z.eqb andb negb].
  rewrite finish_eq. unfold current_project.
  cbn [world cmds after_command logged]. rewrite Hw, Hc.
  rewrite (strip_all_space _ Hblank). cbn [Py.not_str].
  f_equal. unfold after_command, logged. cbn [world cmds stdin log].
  rewrite Hw, Hc, <- !app_assoc. reflexivity.
Qed.

(** X10.  After a project has been selected and set, the project that
    [main] links is the one the second query reports, whatever was
    selected: the run ends with the command that links that project to the
    account, with status 0 if the command succeeds and 1 if it fails. *)
Theorem main_links_confirmed_project (p : string) :
  let history := cmds st ++ [billing_list_command; get_project_command;
                             project_list_command] in
  let set := set_project_command project_id in
  returncode (world st history set) = 0%Z ->
  Py.strip (stdout (world st (history ++ [set]) get_project_command)) = p ->
  p <> EmptyString ->
  let link := link_command p (Py.format_opt b) in
  let process := world st (history ++ [set; get_project_command]) link in
  let steps :=
    [Print ("Setting project '" ++ project_id ++ "' as current...");
     Subprocess set;
     Subprocess get_project_command;
     Print ("Using project: " ++ p);
     Print ("Linking project " ++ p ++ " to billing account "
            ++ Py.format_opt d ++ " (" ++ Py.format_opt b ++ ")...");
     Subprocess link] in
  cmds (snd (main st)) = history ++ [set; get_project_command; link]
  /\ stdin (snd (main st)) = stdin st5
  /\ (returncode process = 0%Z ->
      result main st = Return tt
      /\ log (snd (main st))
         = log st5 ++ steps ++ [Print "Successfully linked project."])
  /\ (returncode process <> 0%Z ->
      result main st = Raise (SystemExit 1)
      /\ log (snd (main st))
         = log st5 ++ steps
           ++ [PrintErr ("Error running command: " ++ link);
               PrintErr ("Stderr: " ++ stderr process)]).
Proof.
  intros history set Hrc Hp Hne link process steps.
  subst history set link process steps.
  destruct after_selection_frame as [Hw Hc].
  assert (Hns : Py.not_str p = false) by (now destruct p).
  unfold result.
  rewrite main_after_selection, run_gcloud_command_eq. cbn zeta.
  cbn [world cmds logged]. rewrite Hw, Hc, Hrc. cbn [Z.eqb andb negb].
  rewrite finish_eq. unfold current_project.
  cbn [world cmds after_command logged]. rewrite Hw, Hc, Hp, Hns. cbn zeta.
  rewrite <- !app_assoc. cbn [app].
  split; [|split; [|split]].
  - destruct (returncode _ =? 0)%Z; unfold after_command, logged;
      cbn [snd cmds]; rewrite Hc, <- !app_assoc; reflexivity.
  - now destruct (returncode _ =? 0)%Z.
  - intros ->. cbn [Z.eqb fst snd]. split; [reflexivity|].
    unfold after_command, logged. cbn [log]. now rewrite <- !app_assoc.
  - intros Hl. apply Z.eqb_neq in Hl. rewrite Hl. cbn [fst snd].
    split; [reflexivity|].
    unfold after_command, logged. cbn [log]. now rewrite <- !app_assoc.
Qed.

End AfterSelection.

Lemma main_set_project_fails_witness :
  fst (main (initial (gcloud_where 1 EmptyString) ["2"]))
  = Raise (SystemExit 1).
Proof.
  rewrite (main_set_project_fails
             (initial (gcloud_where 1 EmptyString) ["2"])
             (Some "My Trial Billing Account") (Some "billingAccounts/ABC123")
             "proj-2"
             (snd (select_project
                     (before_selection
                        (initial (gcloud_where 1 EmptyString) ["2"])
                        (Some "My Trial Billing Account")
                        (Some "billingAccounts/ABC123"))))
             eq_refl eq_refl eq_refl eq_refl ltac:(discriminate)
             ltac:(discriminate)).
  reflexivity.
Defined.

Lemma main_project_not_confirmed_witness :
  fst (main (initial (gcloud_where 0 (" " ++ LF)) ["2"]))
  = Raise (SystemExit 1).
Proof.
  rewrite (main_project_not_confirmed
             (initial (gcloud_where 0 (" " ++ LF)) ["2"])
             (Some "My Trial Billing Account") (Some "billingAccounts/ABC123")
             "proj-2"
             (snd (select_project
                     (before_selection
                        (initial (gcloud_where 0 (" " ++ LF)) ["2"])
                        (Some "My Trial Billing Account")
                        (Some "billingAccounts/ABC123"))))
             eq_refl eq_refl eq_refl eq_refl ltac:(discriminate)
             eq_refl eq_refl).
  reflexivity.
Defined.

(** The user selects [proj-2], the tool then reports [other-project]: that
    is the project linked. *)
Lemma main_links_confirmed_project_witness :
  cmds (snd (main (initial (gcloud_where 0 ("other-project" ++ LF)) ["2"])))
  = [billing_list_command; get_project_command; project_list_command;
     set_project_command "proj-2"; get_project_command;
     link_command "other-project" "billingAccounts/ABC123"].
Proof.
  apply (main_links_confirmed_project
           (initial (gcloud_where 0 ("other-project" ++ LF)) ["2"])
           (Some "My Trial Billing Account") (Some "billingAccounts/ABC123")
           "proj-2"
           (snd (select_project
                   (before_selection
                      (initial (gcloud_where 0 ("other-project" ++ LF)) ["2"])
                      (Some "My Trial Billing Account")
                      (Some "billingAccounts/ABC123"))))
           eq_refl eq_refl eq_refl eq_refl ltac:(discriminate)
           "other-project" eq_refl eq_refl ltac:(discriminate)).
Defined.

(** ** Every run of [main] *)

Lemma reads_ret {A} (a : A) : reads (ret a).
Proof. intros st. now exists []. Qed.

Lemma reads_pure {A} (o : outcome A) : reads (fun st => (o, st)).
Proof. intros st. now exists []. Qed.

Lemma reads_emit e : reads (emit e).
Proof. intros st. now exists []. Qed.

Lemma reads_bind {A B} (m : M A) (k : A -> M B) :
  reads m -> (forall a, reads (k a)) -> reads (bind m k).
Proof.
  intros Hm Hk st. destruct (Hm st) as [used H]. unfold bind.
  destruct (m st) as [[a|e] st']; cbn [snd] in *.
  - destruct (Hk a st') as [used' H']. exists (used ++ used').
    now rewrite <- app_assoc, <- H'.
  - now exists used.
Qed.

Lemma reads_print_menu projects : forall i, reads (print_menu i projects).
Proof.
  induction projects as [|r projects IH]; intros i; [apply reads_ret|].
  destruct r as [|project_id [|name [|extra r]]];
    try apply (reads_pure (Raise ValueError)).
  apply reads_bind; [apply reads_emit | intros _; apply IH].
Qed.

Lemma selection_loop_reads projects lines : forall log,
  exists used,
    lines = used ++ fst (snd (selection_loop projects lines log)).
Proof.
  induction lines as [|line lines IH]; intros log; cbn [selection_loop].
  - now exists [].
  - destruct (Py.int line) as [k|].
    + destruct (_ && _).
      * exists [line]. now destruct (nth_error _ _) as [[|project_id r]|].
      * destruct (IH (((log ++ [Prompt (selection_prompt projects)])
                       ++ [PrintErr "Invalid selection. Please try again."])))
          as [used H].
        exists (line :: used). cbn [app]. now rewrite <- H.
    + destruct (IH (((log ++ [Prompt (selection_prompt projects)])
                     ++ [PrintErr "Invalid input. Please enter a number."])))
        as [used H].
      exists (line :: used). cbn [app]. now rewrite <- H.
Qed.

Lemma reads_while_true projects : reads (while_true projects).
Proof.
  intros st. rewrite while_true_eq. cbn [snd stdin].
  apply selection_loop_reads.
Qed.

Lemma reads_select_project : reads select_project.
Proof.
  intros st. rewrite select_project_eq. cbn zeta.
  destruct (returncode _ =? 0)%Z; [|now exists []].
  destruct (Csv.to_list _) as [[|r projects]|]; try now exists [].
  assert (H : reads (offer (r :: projects))).
  { apply reads_bind; [apply reads_emit | intros _].
    apply reads_bind; [apply reads_print_menu | intros _].
    apply reads_bind; [apply reads_while_true | intros p; apply reads_ret]. }
  apply (H (after_command (logged st [Print "Fetching available projects..."])
                          project_list_command [])).
Qed.

Lemma finish_cases d b p st :
  let link := link_command p (Py.format_opt b) in
  stdin (snd (finish d b p st)) = stdin st
  /\ ((p = EmptyString /\ cmds (snd (finish d b p st)) = cmds st
       /\ fst (finish d b p st) = Raise (SystemExit 1))
      \/ (p <> EmptyString
          /\ cmds (snd (finish d b p st)) = cmds st ++ [link]
          /\ (fst (finish d b p st) = Return tt
              <-> returncode (world st (cmds st) link) = 0%Z)
          /\ (fst (finish d b p st) <> Return tt ->
              fst (finish d b p st) = Raise (SystemExit 1)))).
Proof.
  intros link. subst link. rewrite finish_eq. destruct p as [|c p].
  - cbn. split; [reflexivity|]. left. now repeat split.
  - cbn [Py.not_str]. cbn zeta.
    destruct (returncode _ =? 0)%Z eqn:Hrc; cbn [fst snd];
      (split; [reflexivity|]); right; (split; [discriminate|]);
      (split; [reflexivity|]).
    + apply Z.eqb_eq in Hrc. now repeat split.
    + apply Z.eqb_neq in Hrc. split; [split; [discriminate | contradiction]|].
      reflexivity.
Qed.

Lemma find_stdin st :
  stdin (snd (find_active_billing_account st)) = stdin st.
Proof.
  rewrite find_active_billing_account_eq. cbn zeta.
  now destruct (returncode _ =? 0)%Z.
Qed.

Lemma run_stdin command check st :
  stdin (snd (run_gcloud_command command check st)) = stdin st.
Proof.
  rewrite run_gcloud_command_eq. cbn zeta. now destruct (check && _).
Qed.

Lemma run_checked_fails command st e st' :
  run_gcloud_command command true st = (Raise e, st') -> e = SystemExit 1.
Proof.
  rewrite run_gcloud_command_eq. cbn zeta.
  destruct (true && _); now intros [= <- _].
Qed.

(** The six ways a run of [main] can go, told apart by the commands run. *)
Lemma main_run_cases (st : State) :
  let run := main st in
  let B := billing_list_command in
  let G := get_project_command in
  let P := project_list_command in
  (cmds (snd run) = cmds st ++ [B]
   /\ stdin (snd run) = stdin st /\ fst run <> Return tt)
  \/ (exists p b,
        cmds (snd run) = cmds st ++ [B; G; link_command p b]
        /\ stdin (snd run) = stdin st
        /\ (fst run = Return tt
            <-> returncode (world st (cmds st ++ [B; G]) (link_command p b))
                = 0%Z))
  \/ (exists used,
        stdin st = used ++ stdin (snd run)
        /\ ((cmds (snd run) = cmds st ++ [B; G; P] /\ fst run <> Return tt)
            \/ (exists id,
                  cmds (snd run) = cmds st ++ [B; G; P; set_project_command id]
                  /\ fst run <> Return tt)
            \/ (exists id,
                  cmds (snd run)
                  = cmds st ++ [B; G; P; set_project_command id; G]
                  /\ fst run <> Return tt)
            \/ (exists id p b,
                  cmds (snd run)
                  = cmds st ++ [B; G; P; set_project_command id; G;
                                link_command p b]
                  /\ (fst run = Return tt
                      <-> returncode
                            (world st
                               (cmds st ++ [B; G; P; set_project_command id; G])
                               (link_command p b)) = 0%Z)))).
Proof.
  intros run B G P. subst run B G P. rewrite main_eq.
  set (st0 := logged st [Print "Finding an active billing account..."]).
  destruct (find_frame st0) as [Hw1 Hc1]. pose proof (find_stdin st0) as Hi1.
  destruct (find_active_billing_account st0) as [[[d b]|e] st1];
    cbn [snd fst] in *.
  2:{ left. now repeat split. }
  destruct (Py.not_opt b).
  { left. cbn [snd fst logged cmds stdin]. now repeat split. }
  cbn zeta. set (st2 := logged st1 _).
  destruct (Py.not_str (current_project st2)) eqn:Hp.
  - right. right.
    set (st4 := logged (after_command st2 get_project_command []) _).
    assert (Hc4 : cmds st4
                  = cmds st ++ [billing_list_command; get_project_command])
      by (cbn; rewrite Hc1; cbn; now rewrite <- app_assoc).
    destruct (select_project_frame st4) as [Hw5 Hc5].
    destruct (reads_select_project st4) as [used Hused].
    rewrite Hc4, <- app_assoc in Hc5. cbn [app] in Hc5.
    assert (Hi4 : stdin st4 = stdin st) by exact Hi1. rewrite Hi4 in Hused.
    exists used.
    destruct (select_project st4) as [[selected|e] st5]; cbn [snd fst] in *.
    2:{ split; [exact Hused|]. left. now split. }
    destruct (Py.not_opt selected).
    { cbn [snd fst logged cmds stdin]. split; [exact Hused|]. left. now split. }
    set (id := Py.format_opt selected). set (st6 := logged st5 _).
    destruct (run_frame (set_project_command id) true st6) as [Hw7 Hc7].
    pose proof (run_stdin (set_project_command id) true st6) as Hi7.
    cbn [logged cmds stdin world st6] in Hc7, Hi7, Hw7.
    rewrite Hc5, <- app_assoc in Hc7. cbn [app] in Hc7.
    destruct (run_gcloud_command _ true st6) as [[x|e] st7]; cbn [snd fst] in *.
    + set (st8 := after_command st7 get_project_command []).
      destruct (finish_cases d b (current_project st7) st8)
        as [Hi9 [(_ & Hc9 & Ho9)|(_ & Hc9 & Ho9 & _)]];
        cbn zeta in *; cbn [st8 after_command stdin cmds world] in Hi9, Hc9, Ho9;
        rewrite Hc7, <- ?app_assoc in Hc9; cbn [app] in Hc9;
        (split; [now rewrite Hi9, Hi7|]).
      * right. right. left. exists id. split; [exact Hc9|].
        rewrite Ho9. discriminate.
      * right. right. right.
        exists id, (current_project st7), (Py.format_opt b).
        split; [exact Hc9|]. rewrite Ho9.
        rewrite Hw7, Hw5. cbn [st4 st2 logged after_command world].
        rewrite Hw1, Hc7, <- app_assoc. cbn [st0 logged world app]. reflexivity.
    + split; [now rewrite Hi7|]. right. left. exists id. now split.
  - right. left. set (st3 := after_command st2 get_project_command []).
    destruct (finish_cases d b (current_project st2) st3)
      as [Hi9 [(Hempty & _)|(_ & Hc9 & Ho9 & _)]].
    { rewrite Hempty in Hp. discriminate. }
    cbn zeta in *. cbn [st3 st2 after_command logged stdin cmds world] in *.
    rewrite Hc1, <- ?app_assoc in Hc9. cbn [app st0 logged cmds] in Hc9.
    exists (current_project (logged st1 [Print ("Found billing account: " ++ Py.format_opt d ++ " (" ++ Py.format_opt b ++ ")"); Print "Finding current project..."])), (Py.format_opt b).
    split; [exact Hc9|]. split; [now rewrite Hi9, Hi1|].
    rewrite Ho9, Hw1, Hc1. cbn [st0 logged world cmds].
    now rewrite <- app_assoc.
Qed.

(** X11.  The commands of a run of [main] are, in order, one of six
    sequences: the billing listing alone; the listing, the project query
    and the link; or the listing, the query and the project listing,
    followed by nothing, by the set command, by the set command and a
    second query, or by these two and the link.  So the billing listing
    comes first, the project is set at most once and queried at most
    twice, and the link comes at most once, last. *)
Theorem main_command_sequences (st : State) :
  let B := billing_list_command in
  let G := get_project_command in
  let P := project_list_command in
  exists suffix,
    cmds (snd (main st)) = cmds st ++ suffix
    /\ (suffix = [B]
        \/ (exists p b, suffix = [B; G; link_command p b])
        \/ suffix = [B; G; P]
        \/ (exists id, suffix = [B; G; P; set_project_command id])
        \/ (exists id, suffix = [B; G; P; set_project_command id; G])
        \/ (exists id p b,
              suffix = [B; G; P; set_project_command id; G;
                        link_command p b])).
Proof.
  cbn zeta.
  destruct (main_run_cases st)
    as [(Hc & _)
       |[(p & b & Hc & _)
        |(used & _ & [(Hc & _)
                     |[(id & Hc & _)
                      |[(id & Hc & _)|(id & p & b & Hc & _)]]])]];
    eexists; (split; [exact Hc|]); eauto 10.
Qed.

Lemma link_is_no_query p b :
  link_command p b <> billing_list_command
  /\ link_command p b <> get_project_command
  /\ link_command p b <> project_list_command
  /\ forall id, link_command p b <> set_project_command id.
Proof. repeat split; discriminate. Qed.

(** X12.  [main] returns exactly when the last command it ran is a linking
    command that exited with status 0. *)
Theorem main_succeeds_iff_link_succeeds (st : State) :
  result main st = Return tt
  <-> exists before p b,
        cmds (snd (main st)) = cmds st ++ before ++ [link_command p b]
        /\ returncode (world st (cmds st ++ before) (link_command p b)) = 0%Z.
Proof.
  unfold result.
  assert (Hlast : forall (l l' : list string) x y,
             l ++ [x] = l' ++ [y] -> l = l' /\ x = y)
    by (intros; now apply app_inj_tail).
  destruct (main_run_cases st)
    as [(Hc & _ & Ho)
       |[(p & b & Hc & _ & Ho)
        |(used & _ & [(Hc & Ho)
                     |[(id & Hc & Ho)
                      |[(id & Hc & Ho)|(id & p & b & Hc & Ho)]]])]];
    cbn zeta in *; split.
  - intros H. contradiction.
  - intros (before & p & b & E & _). exfalso. rewrite Hc in E.
    apply app_inv_head in E. apply (Hlast [] before) in E as [_ E].
    now destruct (link_is_no_query p b) as (H1 & _); apply H1.
  - intros H. exists [billing_list_command; get_project_command], p, b.
    split; [exact Hc | now apply Ho].
  - intros (before & p' & b' & E & Hrc). apply Ho. rewrite Hc in E.
    apply app_inv_head in E.
    apply (Hlast [billing_list_command; get_project_command] before)
      in E as [<- ->].
    exact Hrc.
  - intros H. contradiction.
  - intros (before & p & b & E & _). exfalso. rewrite Hc in E.
    apply app_inv_head in E.
    apply (Hlast [billing_list_command; get_project_command] before)
      in E as [_ E].
    now destruct (link_is_no_query p b) as (_ & _ & H3 & _); apply H3.
  - intros H. contradiction.
  - intros (before & p & b & E & _). exfalso. rewrite Hc in E.
    apply app_inv_head in E.
    apply (Hlast [billing_list_command; get_project_command;
                  project_list_command] before) in E as [_ E].
    now destruct (link_is_no_query p b) as (_ & _ & _ & H4); apply (H4 id).
  - intros H. contradiction.
  - intros (before & p & b & E & _). exfalso. rewrite Hc in E.
    apply app_inv_head in E.
    apply (Hlast [billing_list_command; get_project_command;
                  project_list_command; set_project_command id] before)
      in E as [_ E].
    now destruct (link_is_no_query p b) as (_ & H2 & _); apply H2.
  - intros H.
    exists [billing_list_command; get_project_command; project_list_command;
            set_project_command id; get_project_command], p, b.
    split; [exact Hc | now apply Ho].
  - intros (before & p' & b' & E & Hrc). apply Ho. rewrite Hc in E.
    apply app_inv_head in E.
    apply (Hlast [billing_list_command; get_project_command;
                  project_list_command; set_project_command id;
                  get_project_command] before) in E as [<- ->].
    exact Hrc.
Qed.

Lemma main_succeeds_iff_link_succeeds_witness :
  result main (initial (gcloud one_account "my-project" EmptyString) [])
  = Return tt.
Proof.
  apply (proj2 (main_succeeds_iff_link_succeeds
                  (initial (gcloud one_account "my-project" EmptyString) []))).
  exists [billing_list_command; get_project_command],
         "my-project", "billingAccounts/ABC123".
  split; reflexivity.
Defined.

(** X13.  A run of [main] ends with status 0 or 1, and with 0 exactly when
    [main] returns. *)
Theorem main_exit_status (w : World) (lines : list string) :
  let run := main (initial w lines) in
  (exit_status (fst run) = 0%Z \/ exit_status (fst run) = 1%Z)
  /\ (exit_status (fst run) = 0%Z <-> fst run = Return tt).
Proof.
  intros run.
  assert (H : halted (fst run) (log (snd run)))
    by (apply fail_fast_main; constructor).
  destruct (fst run) as [[]|[code| | | |]]; cbn [halted exit_status] in *;
    try (split; [now right | split; discriminate]).
  - split; [now left | now split].
  - destruct H as [-> _]. split; [now right | split; discriminate].
Qed.

Lemma main_exit_status_witness :
  exit_status (fst (main (initial (answering EmptyString) []))) = 0%Z
  \/ exit_status (fst (main (initial (answering EmptyString) []))) = 1%Z.
Proof. exact (proj1 (main_exit_status (answering EmptyString) [])). Defined.

(** X14.  [main] takes what it reads from the front of standard input, and
    reads nothing in a run that does not list the projects. *)
Theorem main_reads_only_to_select (st : State) :
  (exists used, stdin st = used ++ stdin (snd (main st)))
  /\ (forall suffix,
        cmds (snd (main st)) = cmds st ++ suffix ->
        ~ In project_list_command suffix ->
        stdin (snd (main st)) = stdin st).
Proof.
  destruct (main_run_cases st)
    as [(Hc & Hi & _)
       |[(p & b & Hc & Hi & _)
        |(used & Hi & Hc)]]; cbn zeta in *.
  - split; [exists []; now rewrite Hi | auto].
  - split; [exists []; now rewrite Hi | auto].
  - split; [now exists used|].
    intros suffix E Hno. exfalso. apply Hno.
    destruct Hc as [(Hc & _)
                   |[(id & Hc & _)|[(id & Hc & _)|(id & p & b & Hc & _)]]];
      rewrite Hc in E; apply app_inv_head in E; subst suffix;
      cbn; auto.
Qed.

Lemma main_reads_only_to_select_witness :
  stdin (snd (main (initial (gcloud one_account "my-project" EmptyString)
                      ["unread"])))
  = ["unread"].
Proof.
  apply (proj2 (main_reads_only_to_select
                  (initial (gcloud one_account "my-project" EmptyString)
                     ["unread"]))
           [billing_list_command; get_project_command;
            link_command "my-project" "billingAccounts/ABC123"]).
  - reflexivity.
  - intros [H|[H|[H|[]]]]; discriminate.
Defined.

(** X15.  The script sees what the commands write through [strip] only:
    two tools that agree on every exit status and error text, and on every
    output up to the white space at its ends, give the same run. *)
Theorem main_depends_on_trimmed_output (w w' : World) (lines : list string) :
  world_agree w w' ->
  observe (main (initial w lines)) = observe (main (initial w' lines)).
Proof.
  intros H.
  destruct (respects_main (initial w lines) (initial w' lines))
    as [Ho (_ & Hc & Hi & Hl)].
  - unfold agree. cbn. auto.
  - unfold observe. now rewrite Ho, Hc, Hi, Hl.
Qed.

Lemma main_depends_on_trimmed_output_witness :
  observe (main (initial (answering one_account) []))
  = observe (main (initial (answering (LF ++ " " ++ one_account ++ " ")) [])).
Proof.
  apply (main_depends_on_trimmed_output
           (answering one_account)
           (answering (LF ++ " " ++ one_account ++ " ")) []).
  intros h c. repeat split; reflexivity.
Defined.
